(** * MediCare AI: session store and response annotator

    A shallow embedding of [assistant.py] (class [MedicalAssistant] and the
    module-level convenience functions) and of the route handlers of
    [main.py], together with the properties of the session lifecycle and of
    the emergency annotation.

    Conventions of the embedding.
    - Python [str] is [string].  [lower] is [str.lower] on texts of ASCII
      characters: it lowers the letters A to Z.  Characters outside ASCII,
      which Python lowers by the Unicode tables (the Kelvin sign to [k]),
      are left as they are here; a property that the difference could
      change is stated for ASCII texts ([is_ascii]).
    - The dictionaries a function returns are association lists in the
      order of the dict display; the session registry [self.sessions] is a
      finite map from session id to the session dictionary.
    - A Python function is a computation that returns a value or raises,
      threading the state it mutates and a counter of the external effects
      performed so far (clock readings, uuid draws, calls into the
      generative-AI library).  What the outside world answers is given by
      an environment of oracles indexed by that counter. *)

From Stdlib Require Import String Ascii List Bool Arith Lia.
From stdpp Require Import base option list gmap strings fin_maps pretty.

(** ** Python strings *)

Module Str.

(** [c.lower()] for one ASCII character; any other character is kept. *)
Definition lower_ascii (c : ascii) : ascii :=
  let n := nat_of_ascii c in
  if ((65 <=? n) && (n <=? 90))%nat then ascii_of_nat (n + 32) else c.

(** [s.lower()], for [s] a text of ASCII characters *)
Fixpoint lower (s : string) : string :=
  match s with
  | EmptyString => EmptyString
  | String c s' => String (lower_ascii c) (lower s')
  end.

(** [sub in s]: [sub] occurs in [s] as a contiguous run of characters. *)
Fixpoint contains (sub s : string) : bool :=
  String.prefix sub s ||
  match s with
  | EmptyString => false
  | String _ s' => contains sub s'
  end.

(** The same, as a proposition. *)
Definition occurs_in (sub s : string) : Prop :=
  exists pre post : string, s = pre +:+ sub +:+ post.

(** [s.isascii()]: every character of [s] is an ASCII character.  On
    these texts [lower] is Python's [str.lower]. *)
Fixpoint is_ascii (s : string) : bool :=
  match s with
  | EmptyString => true
  | String c s' => (nat_of_ascii c <? 128)%nat && is_ascii s'
  end.

(** [not s]: the empty string is the only falsy string. *)
Definition falsy (s : string) : bool :=
  match s with EmptyString => true | _ => false end.

(** A lowered string holds no upper-case letter. *)
Definition is_upper (c : ascii) : bool :=
  let n := nat_of_ascii c in ((65 <=? n) && (n <=? 90))%nat.

Fixpoint has_upper (s : string) : bool :=
  match s with
  | EmptyString => false
  | String c s' => is_upper c || has_upper s'
  end.

End Str.

(** ** Python values, dictionaries and exceptions *)

(** The values that occur in the dictionaries the program builds. *)
#[warnings="-register-all"] Inductive Value : Type :=
| VStr (s : string)
| VInt (n : nat)
| VBool (b : bool)
| VList (l : list (list (string * Value))).

(** A dict display, in the order it is written. *)
Definition Dict : Type := list (string * Value).

(** [d.get(k)] *)
Fixpoint dict_get (k : string) (d : Dict) : option Value :=
  match d with
  | [] => None
  | (k', v) :: d' => if String.eqb k k' then Some v else dict_get k d'
  end.

(** [k in d] *)
Definition dict_in (k : string) (d : Dict) : bool :=
  match dict_get k d with Some _ => true | None => false end.

(** [d.get(k, default)] *)
Definition dict_get_default (k : string) (default : Value) (d : Dict) : Value :=
  match dict_get k d with Some v => v | None => default end.

(** Exceptions: FastAPI's [HTTPException], which the route handlers
    raise and tell apart, and every other exception, of which the program
    only reads the type name and [str(e)]. *)
Inductive Exception : Type :=
| HTTPException (status_code : nat) (detail : Value)
| Error (type_name : string) (message : string).

(** Reading an attribute of [None]. *)
Definition NoneType_has_no_attribute (attr : string) : Exception :=
  Error "AttributeError"
        ("'NoneType' object has no attribute '" +:+ attr +:+ "'").

(** ** The generative-AI library, as far as the program reads it *)

Module genai.

Record Part : Type := { text : string }.

Record Content : Type := { role : string; parts : list Part }.

(** The conversation handle: [chat.history] is all the program reads. *)
Record ChatSession : Type := { history : list Content }.

(** The reply.  [response.text] is a property of the library: it gives the
    text of the reply, and raises when the reply holds none. *)
Record GenerateContentResponse : Type := { response_text : Exception + string }.

Record GenerativeModel : Type := { model_name : string }.

End genai.

(** ** The outside world

    [now_isoformat t], [uuid4 t], [start_chat_raises t] and
    [send_message t] are what the clock, the uuid generator and the library
    answer when asked as the [t]-th external effect of the run.
    [send_message] gives the conversation handle as the call leaves it and
    either the exception raised or the reply. *)
Record Env : Type := {
  GENAI_AVAILABLE : bool;
  GEMINI_API_KEY : string;
  configure_raises : string -> option Exception;
  GenerativeModel_new : Exception + genai.GenerativeModel;
  now_isoformat : nat -> string;
  uuid4 : nat -> string;
  start_chat_raises : nat -> option Exception;
  send_message :
    nat -> genai.ChatSession -> string ->
    genai.ChatSession * (Exception + genai.GenerateContentResponse);
  str_HTTPException : nat -> Value -> string
}.

(** [str(e)] *)
Definition str (env : Env) (e : Exception) : string :=
  match e with
  | HTTPException status_code detail => str_HTTPException env status_code detail
  | Error _ message => message
  end.

(** ** Computations that return or raise *)

Inductive Outcome (A : Type) : Type :=
| Return (a : A)
| Raise (e : Exception).
Arguments Return {A} a.
Arguments Raise {A} e.

(** A computation over a mutable state [St]; the [nat] counts the external
    effects performed so far. *)
Definition M (St A : Type) : Type := St -> nat -> Outcome A * St * nat.

Global Instance M_ret {St} : MRet (M St) :=
  fun A (a : A) s t => (Return a, s, t).

Global Instance M_bind {St} : MBind (M St) :=
  fun A B (f : A -> M St B) (m : M St A) s t =>
    match m s t with
    | (Return a, s', t') => f a s' t'
    | (Raise e, s', t') => (Raise e, s', t')
    end.

Definition raise {St A} (e : Exception) : M St A :=
  fun s t => (Raise e, s, t).

(** [try: body / except Exception as e: handler e] *)
Definition try_except {St A} (body : M St A) (handler : Exception -> M St A)
  : M St A :=
  fun s t =>
    match body s t with
    | (Return a, s', t') => (Return a, s', t')
    | (Raise e, s', t') => handler e s' t'
    end.

Definition get {St} : M St St := fun s t => (Return s, s, t).

Definition modify {St} (f : St -> St) : M St unit :=
  fun s t => (Return tt, f s, t).

(** One question to the outside world. *)
Definition effect {St A} (answer : nat -> A) : M St A :=
  fun s t => (Return (answer t), s, S t).

(** Running a computation on the object a variable refers to, when the state
    is that variable ([medical_assistant.method(...)]); reading the attribute
    [attr] of [None] raises. *)
Definition on_object {St A} (attr : string) (m : M St A) : M (option St) A :=
  fun o t =>
    match o with
    | None => (Raise (NoneType_has_no_attribute attr), None, t)
    | Some s => let '(r, s', t') := m s t in (r, Some s', t')
    end.

(** ** assistant.py *)

Module assistant.

(** The dictionary stored per session: the key ["last_interaction"] is
    absent until the first successful exchange. *)
Record Session : Type := {
  chat : genai.ChatSession;
  created_at : string;
  message_count : nat;
  last_interaction : option string
}.

Definition set_chat (c : genai.ChatSession) (s : Session) : Session :=
  {| chat := c; created_at := created_at s;
     message_count := message_count s;
     last_interaction := last_interaction s |}.

Definition set_message_count (n : nat) (s : Session) : Session :=
  {| chat := chat s; created_at := created_at s;
     message_count := n;
     last_interaction := last_interaction s |}.

Definition set_last_interaction (ts : string) (s : Session) : Session :=
  {| chat := chat s; created_at := created_at s;
     message_count := message_count s;
     last_interaction := Some ts |}.

(** The attributes of a [MedicalAssistant] instance. *)
Record MedicalAssistant : Type := {
  initialized : bool;
  model : option genai.GenerativeModel;
  sessions : gmap string Session
}.

Definition set_sessions (m : gmap string Session) (self : MedicalAssistant)
  : MedicalAssistant :=
  {| initialized := initialized self; model := model self; sessions := m |}.

(** [emergency_keywords] of [_detect_emergency], as written. *)
Definition emergency_keywords : list string :=
  [ "emergency"; "911"; "urgent care"; "immediately";
    "call an ambulance"; "go to the ER"; "emergency room";
    "life-threatening"; "seek immediate"; "critical" ].

(** [MedicalAssistant._detect_emergency] *)
Definition _detect_emergency (response_text : string) : bool :=
  let response_lower := Str.lower response_text in
  existsb (fun keyword => Str.contains keyword response_lower)
          emergency_keywords.

(** The message chosen in the [except] branch of [get_response]. *)
Definition error_message (error_msg : string) : string :=
  if Str.contains "API_KEY_INVALID" error_msg
     || Str.contains "invalid api key" (Str.lower error_msg)
  then "Invalid API key. Please check your GEMINI_API_KEY configuration."
  else if Str.contains "quota" (Str.lower error_msg)
  then "API quota exceeded. Please check your Google Cloud billing or wait for quota reset."
  else if Str.contains "permission" (Str.lower error_msg)
  then "Permission denied. Please ensure your API key has access to Gemini API."
  else "API Error: " +:+ error_msg.

(** The entry of one turn in the list [get_session_history] builds. *)
Definition history_entry (message : genai.Content) : Dict :=
  [ ("role", VStr (genai.role message));
    ("content", VStr match genai.parts message with
                     | p :: _ => genai.text p
                     | [] => ""
                     end) ].

Section WithEnv.

Context (env : Env).

(** [MedicalAssistant.__init__]: the instance, or the exception the
    constructor lets escape.  [GEMINI_API_KEY] is the constant of the module,
    taken from the environment here; of the text of the [ValueError], which
    nothing reads, only the first sentence is kept. *)
Definition __init__ (api_key : option string) : Exception + MedicalAssistant :=
  if negb (GENAI_AVAILABLE env)
  then inl (Error "ImportError" "google-generativeai package not installed. Install with: pip install google-generativeai")
  else
    let api_key_to_use :=
      match api_key with
      | Some k => if Str.falsy k then GEMINI_API_KEY env else k
      | None => GEMINI_API_KEY env
      end in
    if Str.falsy api_key_to_use
    then inl (Error "ValueError" "GEMINI_API_KEY not found.")
    else
      match configure_raises env api_key_to_use with
      | Some e => inl e
      | None =>
          match GenerativeModel_new env with
          | inl e => inl e
          | inr m => inr {| initialized := true; model := Some m; sessions := ∅ |}
          end
      end.

(** [datetime.now().isoformat()] *)
Definition datetime_now_isoformat {St} : M St string :=
  effect (now_isoformat env).

(** [self.model.start_chat(history=h)]: the library builds a handle around
    the history it is given, unless it raises. *)
Definition start_chat (h : list genai.Content)
  : M MedicalAssistant genai.ChatSession :=
  self ← get;
  match model self with
  | None => raise (NoneType_has_no_attribute "start_chat")
  | Some _ =>
      r ← effect (start_chat_raises env);
      match r with
      | Some e => raise e
      | None => mret {| genai.history := h |}
      end
  end.

(** [self.sessions[session_id] = session].  The local variable [session] of
    [get_response] refers to the dictionary stored in the registry, so an
    update in place of [session] is an update of the registry entry. *)
Definition store_session (session_id : string) (session : Session)
  : M MedicalAssistant unit :=
  modify (fun self => set_sessions (<[session_id := session]> (sessions self)) self).

(** [self.sessions[session_id]] *)
Definition lookup_session (session_id : string) : M MedicalAssistant Session :=
  self ← get;
  match sessions self !! session_id with
  | Some session => mret session
  | None => raise (Error "KeyError" session_id)
  end.

(** [MedicalAssistant.create_session] *)
Definition create_session (session_id : string) : M MedicalAssistant Dict :=
  self ← get;
  if negb (initialized self) then
    mret [ ("error", VStr "Assistant not initialized");
           ("message", VStr "Medical assistant is not properly configured. Please check API key.") ]
  else
    try_except
      (chat ← start_chat [];
       now ← datetime_now_isoformat;
       _ ← store_session session_id
             {| chat := chat; created_at := now;
                message_count := 0; last_interaction := None |};
       mret [ ("session_id", VStr session_id);
              ("status", VStr "created");
              ("message", VStr "Medical assistant session started. How can I help you today?") ])
      (fun e =>
         mret [ ("error", VStr (str env e));
                ("message", VStr "Failed to create session. Please check API configuration.") ]).

(** [chat.send_message(user_message)] on the handle of the session stored
    under [session_id]: the library updates the handle in place and returns
    the reply or raises. *)
Definition chat_send_message (session_id : string) (session : Session)
    (user_message : string) : M MedicalAssistant (Session * genai.GenerateContentResponse) :=
  r ← effect (fun t => send_message env t (chat session) user_message);
  let session := set_chat r.1 session in
  _ ← store_session session_id session;
  match r.2 with
  | inl e => raise e
  | inr response => mret (session, response)
  end.

(** [response.text] *)
Definition read_text {St} (response : genai.GenerateContentResponse)
  : M St string :=
  match genai.response_text response with
  | inl e => raise e
  | inr text => mret text
  end.

(** [MedicalAssistant.get_response] *)
Definition get_response (session_id user_message : string)
  : M MedicalAssistant Dict :=
  self ← get;
  if negb (initialized self) then
    mret [ ("error", VStr "not_initialized");
           ("message", VStr "Medical assistant is not properly configured. Please check your GEMINI_API_KEY.") ]
  else
    let exchange : M MedicalAssistant Dict :=
      session ← lookup_session session_id;
      try_except
        ('(session, response) ← chat_send_message session_id session user_message;
         let session := set_message_count (message_count session + 1) session in
         _ ← store_session session_id session;
         now ← datetime_now_isoformat;
         let session := set_last_interaction now session in
         _ ← store_session session_id session;
         text ← read_text response;
         let is_emergency := _detect_emergency text in
         timestamp ← datetime_now_isoformat;
         mret [ ("session_id", VStr session_id);
                ("user_message", VStr user_message);
                ("assistant_response", VStr text);
                ("is_emergency", VBool is_emergency);
                ("timestamp", VStr timestamp);
                ("message_count", VInt (message_count session)) ])
        (fun e =>
           let error_msg := str env e in
           mret [ ("session_id", VStr session_id);
                  ("error", VStr error_msg);
                  ("message", VStr (error_message error_msg)) ])
    in
    match sessions self !! session_id with
    | None =>
        result ← create_session session_id;
        if dict_in "error" result then mret result else exchange
    | Some _ => exchange
    end.

(** [MedicalAssistant.get_session_history] *)
Definition get_session_history (session_id : string) : M MedicalAssistant Dict :=
  self ← get;
  match sessions self !! session_id with
  | None => mret [ ("error", VStr "Session not found") ]
  | Some session =>
      let history := map history_entry (genai.history (chat session)) in
      mret [ ("session_id", VStr session_id);
             ("created_at", VStr (created_at session));
             ("message_count", VInt (message_count session));
             ("history", VList history) ]
  end.

(** [MedicalAssistant.end_session] *)
Definition end_session (session_id : string) : M MedicalAssistant Dict :=
  self ← get;
  match sessions self !! session_id with
  | Some _ =>
      _ ← modify (fun self => set_sessions (delete session_id (sessions self)) self);
      mret [ ("session_id", VStr session_id); ("status", VStr "ended") ]
  | None => mret [ ("error", VStr "Session not found") ]
  end.

(** [MedicalAssistant.clear_all_sessions] *)
Definition clear_all_sessions : M MedicalAssistant Dict :=
  self ← get;
  let count := size (sessions self) in
  _ ← modify (set_sessions ∅);
  mret [ ("message", VStr ("Cleared " +:+ pretty count +:+ " sessions")) ].

(** The module-level instance: [None] when the constructor raised. *)
Definition medical_assistant : option MedicalAssistant :=
  match __init__ None with
  | inl _ => None
  | inr a => Some a
  end.

(** The convenience functions; their state is the module-level variable
    [medical_assistant]. *)
Definition create_chat_session (session_id : string)
  : M (option MedicalAssistant) Dict :=
  medical_assistant ← get;
  match medical_assistant with
  | None =>
      mret [ ("error", VStr "assistant_not_initialized");
             ("message", VStr "Medical assistant failed to initialize. Check server logs and API key configuration.") ]
  | Some _ => on_object "create_session" (create_session session_id)
  end.

Definition get_medical_response (session_id message : string)
  : M (option MedicalAssistant) Dict :=
  medical_assistant ← get;
  match medical_assistant with
  | None =>
      mret [ ("error", VStr "assistant_not_initialized");
             ("message", VStr "Medical assistant failed to initialize. Check server logs and API key configuration.") ]
  | Some _ => on_object "get_response" (get_response session_id message)
  end.

Definition get_chat_history (session_id : string)
  : M (option MedicalAssistant) Dict :=
  medical_assistant ← get;
  match medical_assistant with
  | None => mret [ ("error", VStr "Assistant not initialized") ]
  | Some _ => on_object "get_session_history" (get_session_history session_id)
  end.

Definition end_chat_session (session_id : string)
  : M (option MedicalAssistant) Dict :=
  medical_assistant ← get;
  match medical_assistant with
  | None => mret [ ("error", VStr "Assistant not initialized") ]
  | Some _ => on_object "end_session" (end_session session_id)
  end.

(** [test_configuration] (the messages it logs are left out) *)
Definition test_configuration : M (option MedicalAssistant) bool :=
  if Str.falsy (GEMINI_API_KEY env) then mret false
  else if negb (GENAI_AVAILABLE env) then mret false
  else
    medical_assistant ← get;
    match medical_assistant with
    | None => mret false
    | Some _ => mret true
    end.

End WithEnv.

End assistant.

(** ** main.py

    The route handlers as the functions they are: each returns the
    dictionary it hands to the framework or raises.  Request validation and
    the serialisation of the result belong to the framework and are not
    part of the embedding. *)

Module main.

Import assistant.

(** The request body of [/chat] and [/ask]. *)
Record ChatRequest : Type := {
  message : string;
  session_id : option string
}.

(** [d[k]] *)
Definition dict_getitem {St} (k : string) (d : Dict) : M St Value :=
  match dict_get k d with
  | Some v => mret v
  | None => raise (Error "KeyError" k)
  end.

(** How the framework answers: the status of the response a handler's
    outcome is turned into.  An [HTTPException] carries its own status; any
    other exception escapes the handler and gives an internal server
    error. *)
Definition status_code {A} (o : Outcome A) : nat :=
  match o with
  | Return _ => 200
  | Raise (HTTPException code _) => code
  | Raise (Error _ _) => 500
  end.

(** An exception the handler neither returned from nor turned into an
    [HTTPException]. *)
Definition unhandled {A} (o : Outcome A) : bool :=
  match o with
  | Raise (Error _ _) => true
  | _ => false
  end.

Section WithEnv.

Context (env : Env).

Local Abbreviation App := (M (option MedicalAssistant)).

(** [request.session_id or str(uuid.uuid4())] *)
Definition session_id_or_uuid (sid : option string) : App string :=
  match sid with
  | Some s => if Str.falsy s then effect (uuid4 env) else mret s
  | None => effect (uuid4 env)
  end.

(** [GET /api] *)
Definition api_health : App Dict :=
  now ← datetime_now_isoformat env;
  mret [ ("status", VStr "healthy");
         ("timestamp", VStr now);
         ("message", VStr "MediCare AI Medical Assistant API is running") ].

(** [POST /ask] *)
Definition ask_question (data : ChatRequest) : App Dict :=
  session_id ← session_id_or_uuid (session_id data);
  try_except
    (response ← get_medical_response env session_id (message data);
     if dict_in "error" response then
       raise (HTTPException 500
                (dict_get_default "message" (VStr "Internal server error") response))
     else
       answer ← dict_getitem "assistant_response" response;
       mret [ ("answer", answer) ])
    (fun e => raise (HTTPException 500 (VStr (str env e)))).

(** [GET /health] *)
Definition health_check : App Dict :=
  now ← datetime_now_isoformat env;
  mret [ ("status", VStr "healthy");
         ("timestamp", VStr now);
         ("message", VStr "Service is operational") ].

(** [POST /chat] *)
Definition chat (request : ChatRequest) : App Dict :=
  session_id ← session_id_or_uuid (session_id request);
  try_except
    (response ← get_medical_response env session_id (message request);
     if dict_in "error" response then
       raise (HTTPException 500
                (dict_get_default "message" (VStr "Internal server error") response))
     else mret response)
    (fun e => raise (HTTPException 500 (VStr (str env e)))).

(** [POST /session/create] *)
Definition create_session : App Dict :=
  session_id ← effect (uuid4 env);
  try_except
    (create_chat_session env session_id)
    (fun e => raise (HTTPException 500 (VStr (str env e)))).

(** [GET /session/{session_id}/history] *)
Definition get_history (session_id : string) : App Dict :=
  try_except
    (history ← get_chat_history session_id;
     if dict_in "error" history then
       raise (HTTPException 404 (VStr "Session not found"))
     else mret history)
    (fun e =>
       match e with
       | HTTPException _ _ => raise e
       | _ => raise (HTTPException 500 (VStr (str env e)))
       end).

(** [DELETE /session/{session_id}] *)
Definition delete_session (session_id : string) : App Dict :=
  try_except
    (result ← end_chat_session session_id;
     if dict_in "error" result then
       raise (HTTPException 404 (VStr "Session not found"))
     else mret result)
    (fun e =>
       match e with
       | HTTPException _ _ => raise e
       | _ => raise (HTTPException 500 (VStr (str env e)))
       end).

(** [GET /stats] *)
Definition get_stats : App Dict :=
  active_sessions ← on_object "sessions" (self ← get; mret (size (sessions self)));
  now ← datetime_now_isoformat env;
  mret [ ("active_sessions", VInt active_sessions);
         ("timestamp", VStr now) ].

(** [POST /admin/clear-sessions] *)
Definition clear_all_sessions : App Dict :=
  result ← on_object "clear_all_sessions" assistant.clear_all_sessions;
  mret result.

End WithEnv.

End main.

(** ** Notions used to state the properties *)

Import assistant.

(** The annotator as the specification words it: a case-insensitive
    substring match against this vocabulary. *)
Definition spec_vocabulary : list string :=
  [ "emergency"; "911"; "urgent care"; "immediately";
    "call an ambulance"; "go to the er"; "emergency room";
    "life-threatening"; "seek immediate"; "critical" ].

Definition isEmergency_spec (text : string) : bool :=
  existsb (fun term => Str.contains (Str.lower term) (Str.lower text))
          spec_vocabulary.

(** The keywords of the code that a lowered text can contain. *)
Definition live_keywords : list string :=
  filter (fun keyword => Str.has_upper keyword = false) emergency_keywords.

(** An instance as the constructor leaves it and every method keeps it. *)
Definition configured (self : MedicalAssistant) : Prop :=
  initialized self = true /\ is_Some (model self).

(** A result dictionary without the key ["error"]. *)
Definition successful (d : Dict) : bool := negb (dict_in "error" d).

(** The session a successful [create_session] stores. *)
Definition fresh_session (now : string) : Session :=
  {| chat := {| genai.history := [] |}; created_at := now;
     message_count := 0; last_interaction := None |}.

(** The turn count on record for an id: zero when the id is unknown. *)
Definition count_of (self : MedicalAssistant) (session_id : string) : nat :=
  match sessions self !! session_id with
  | Some s => message_count s
  | None => 0
  end.

(** What a successful exchange leaves behind: the session [s'] under the
    id, one turn further, and a result that reports it.  [t] and [t'] count
    the external effects before and after the exchange. *)
Definition exchanged (env : Env) (a : MedicalAssistant) (t : nat)
    (sid : string) (d : Dict) (a' : MedicalAssistant) (t' : nat)
    (s' : Session) : Prop :=
  a' = set_sessions (<[sid := s']> (sessions a)) a /\
  message_count s' = count_of a sid + 1 /\
  created_at s' = match sessions a !! sid with
                  | Some s => created_at s
                  | None => now_isoformat env (S t)
                  end /\
  last_interaction s' = Some (now_isoformat env (t' - 2)) /\
  dict_get "message_count" d = Some (VInt (message_count s')) /\
  dict_get "session_id" d = Some (VStr sid) /\
  t + 3 <= t'.

(** A provider that never fails. *)
Definition healthy (env : Env) : Prop :=
  (forall t, start_chat_raises env t = None) /\
  (forall t c msg, exists c' response text,
      send_message env t c msg = (c', inr response) /\
      genai.response_text response = inr text).

(** Exchanges on one session, one after the other. *)
Fixpoint exchanges (env : Env) (session_id : string) (msgs : list string)
  : M MedicalAssistant (list Dict) :=
  match msgs with
  | [] => mret []
  | msg :: rest =>
      r ← get_response env session_id msg;
      rs ← exchanges env session_id rest;
      mret (r :: rs)
  end.

(** [end_session] and then an exchange on the same id. *)
Definition end_then_exchange (env : Env) (session_id msg : string)
  : M MedicalAssistant Dict :=
  _ ← end_session session_id;
  get_response env session_id msg.

(** Two environments to run the program in: a provider that answers, and
    one that is out of quota. *)
Definition reply (msg : string) : string :=
  if String.eqb msg "I have a headache"
  then "You should rest and monitor your symptoms"
  else "This may be an emergency - call 911 immediately".

Definition turn (who what : string) : genai.Content :=
  {| genai.role := who; genai.parts := [ {| genai.text := what |} ] |}.

Definition healthy_env : Env :=
  {| GENAI_AVAILABLE := true;
     GEMINI_API_KEY := "key";
     configure_raises := fun _ => None;
     GenerativeModel_new := inr {| genai.model_name := "gemini-2.5-flash" |};
     now_isoformat := fun t => "T" +:+ pretty t;
     uuid4 := fun t => "uuid-" +:+ pretty t;
     start_chat_raises := fun _ => None;
     send_message := fun _ c msg =>
       ({| genai.history :=
             genai.history c ++ [ turn "user" msg; turn "model" (reply msg) ] |},
        inr {| genai.response_text := inr (reply msg) |});
     str_HTTPException := fun code detail =>
       pretty code +:+ ": " +:+ match detail with VStr s => s | _ => "" end |}.

Definition failing_env : Env :=
  {| GENAI_AVAILABLE := true;
     GEMINI_API_KEY := "key";
     configure_raises := fun _ => None;
     GenerativeModel_new := inr {| genai.model_name := "gemini-2.5-flash" |};
     now_isoformat := fun t => "T" +:+ pretty t;
     uuid4 := fun t => "uuid-" +:+ pretty t;
     start_chat_raises := fun _ => None;
     send_message := fun _ c _ =>
       (c, inl (Error "ResourceExhausted" "429 Quota exceeded"));
     str_HTTPException := fun code detail =>
       pretty code +:+ ": " +:+ match detail with VStr s => s | _ => "" end |}.

(** An initialised assistant with no session, and one holding the session
    ["s1"] after three turns. *)
Definition empty_assistant : MedicalAssistant :=
  {| initialized := true;
     model := Some {| genai.model_name := "gemini-2.5-flash" |};
     sessions := ∅ |}.

Definition s1_session : Session :=
  {| chat := {| genai.history := [ turn "user" "hello"; turn "model" "hi" ] |};
     created_at := "2024-01-01T00:00:00";
     message_count := 3;
     last_interaction := Some "2024-01-01T00:05:00" |}.

Definition s1_assistant : MedicalAssistant :=
  set_sessions {[ "s1" := s1_session ]} empty_assistant.

(** The two user messages of the scenario of the specification. *)
Definition two_turns : list string :=
  [ "I have a headache"; "I have severe chest pain" ].

(** The outcome, the final state and the final count of a run. *)
Definition outcome_of {St A} (run : Outcome A * St * nat) : Outcome A := run.1.1.
Definition state_of {St A} (run : Outcome A * St * nat) : St := run.1.2.
Definition ticks_of {St A} (run : Outcome A * St * nat) : nat := run.2.

Definition returned {A} (default : A) (o : Outcome A) : A :=
  match o with
  | Return a => a
  | Raise _ => default
  end.

(** A provider whose call returns a reply that holds no text. *)
Definition silent_env : Env :=
  {| GENAI_AVAILABLE := true;
     GEMINI_API_KEY := "key";
     configure_raises := fun _ => None;
     GenerativeModel_new := inr {| genai.model_name := "gemini-2.5-flash" |};
     now_isoformat := fun t => "T" +:+ pretty t;
     uuid4 := fun t => "uuid-" +:+ pretty t;
     start_chat_raises := fun _ => None;
     send_message := fun _ c _ =>
       (c, inr {| genai.response_text :=
                    inl (Error "ValueError" "The response holds no valid part") |});
     str_HTTPException := fun code detail =>
       pretty code +:+ ": " +:+ match detail with VStr s => s | _ => "" end |}.

(** A library that cannot start a conversation. *)
Definition no_chat_env : Env :=
  {| GENAI_AVAILABLE := true;
     GEMINI_API_KEY := "key";
     configure_raises := fun _ => None;
     GenerativeModel_new := inr {| genai.model_name := "gemini-2.5-flash" |};
     now_isoformat := fun t => "T" +:+ pretty t;
     uuid4 := fun t => "uuid-" +:+ pretty t;
     start_chat_raises := fun _ => Some (Error "RuntimeError" "no chat");
     send_message := fun _ c _ => (c, inl (Error "RuntimeError" "no chat"));
     str_HTTPException := fun code detail =>
       pretty code +:+ ": " +:+ match detail with VStr s => s | _ => "" end |}.

(** The calls a client can make on an instance, and a run of them. *)
Inductive Call : Type :=
| CreateSession (session_id : string)
| GetResponse (session_id user_message : string)
| GetSessionHistory (session_id : string)
| EndSession (session_id : string)
| ClearAllSessions.

Definition call (env : Env) (c : Call) : M MedicalAssistant Dict :=
  match c with
  | CreateSession session_id => create_session env session_id
  | GetResponse session_id user_message =>
      get_response env session_id user_message
  | GetSessionHistory session_id => get_session_history session_id
  | EndSession session_id => end_session session_id
  | ClearAllSessions => clear_all_sessions
  end.

Fixpoint calls (env : Env) (cs : list Call) : M MedicalAssistant (list Dict) :=
  match cs with
  | [] => mret []
  | c :: rest =>
      r ← call env c;
      rs ← calls env rest;
      mret (r :: rs)
  end.

(** A session dictionary has the key ["last_interaction"] exactly when it
    counts a turn. *)
Definition session_ok (s : Session) : Prop :=
  message_count s = 0 <-> last_interaction s = None.

Definition registry_ok (self : MedicalAssistant) : Prop :=
  map_Forall (fun _ s => session_ok s) (sessions self).

(** A spelling of [word] in some letter case. *)
Definition spelling_of (word w : string) : Prop := Str.lower w = word.

(** The session id a request of [/chat] or [/ask] runs under, and the
    count of external effects once it is chosen: the id of the request, or
    a uuid drawn for a request that has none or an empty one. *)
Definition request_session_id (env : Env) (request : main.ChatRequest)
    (t : nat) : string * nat :=
  match main.session_id request with
  | Some s => if Str.falsy s then (uuid4 env t, S t) else (s, t)
  | None => (uuid4 env t, S t)
  end.

(** Whether the registry behind the module-level variable holds an id. *)
Definition known (o : option MedicalAssistant) (session_id : string) : bool :=
  match o with
  | Some a => bool_decide (is_Some (sessions a !! session_id))
  | None => false
  end.

(** * Properties *)

(** ** Strings *)

Section StrFacts.

Import Str.

Lemma app_nil s : "" +:+ s = s.
Proof. reflexivity. Qed.

Lemma app_cons c s1 s2 : String c s1 +:+ s2 = String c (s1 +:+ s2).
Proof. reflexivity. Qed.

Lemma prefix_occurs sub s :
  String.prefix sub s = true <-> exists post, s = sub +:+ post.
Proof.
  revert s. induction sub as [|c sub IH]; intros [|d s]; simpl.
  - split; [intros _; exists ""; reflexivity | reflexivity].
  - split; [intros _; exists (String d s); reflexivity | reflexivity].
  - split; [discriminate | intros [post H]; discriminate H].
  - destruct (ascii_dec c d) as [->|Hne].
    + rewrite IH. split; intros [post H]; exists post;
        rewrite app_cons in *; congruence.
    + split; [discriminate |].
      intros [post H]. rewrite app_cons in H. congruence.
Qed.

Lemma contains_occurs sub s : contains sub s = true <-> occurs_in sub s.
Proof.
  unfold occurs_in.
  induction s as [|d s IH]; cbn [contains]; rewrite orb_true_iff, prefix_occurs.
  - split.
    + intros [[post H]|H]; [|discriminate]. exists "", post. exact H.
    + intros ([|c pre] & post & H); [left; by exists post | discriminate H].
  - rewrite IH. split.
    + intros [[post H]|(pre & post & H)].
      * exists "", post. exact H.
      * exists (String d pre), post. rewrite app_cons. by rewrite H.
    + intros ([|c pre] & post & H).
      * left. by exists post.
      * right. exists pre, post. rewrite app_cons in H. congruence.
Qed.

Lemma lower_ascii_idemp c : lower_ascii (lower_ascii c) = lower_ascii c.
Proof.
  destruct c as [[] [] [] [] [] [] [] []]; reflexivity.
Qed.

Lemma lower_idemp s : lower (lower s) = lower s.
Proof.
  induction s as [|c s IH]; simpl; [done|]. by rewrite lower_ascii_idemp, IH.
Qed.

Lemma lower_app s1 s2 : lower (s1 +:+ s2) = lower s1 +:+ lower s2.
Proof.
  induction s1 as [|c s1 IH]; [done|].
  rewrite app_cons. simpl. by rewrite app_cons, IH.
Qed.

Lemma lower_ascii_not_upper c : is_upper (lower_ascii c) = false.
Proof.
  destruct c as [[] [] [] [] [] [] [] []]; reflexivity.
Qed.

Lemma lower_no_upper s : has_upper (lower s) = false.
Proof.
  induction s as [|c s IH]; simpl; [done|].
  by rewrite lower_ascii_not_upper, IH.
Qed.

Lemma has_upper_app s1 s2 :
  has_upper (s1 +:+ s2) = has_upper s1 || has_upper s2.
Proof.
  induction s1 as [|c s1 IH]; [done|].
  rewrite app_cons. simpl. by rewrite IH, orb_assoc.
Qed.

(** Hence a pattern with an upper-case letter never occurs in one. *)
Lemma contains_lower_upper sub s :
  has_upper sub = true -> contains sub (lower s) = false.
Proof.
  intros Hup. destruct (contains sub (lower s)) eqn:Hc; [|done].
  apply contains_occurs in Hc as (pre & post & Heq).
  pose proof (lower_no_upper s) as Hno.
  rewrite Heq, !has_upper_app, Hup, orb_true_r in Hno. discriminate.
Qed.

Lemma length_app s1 s2 :
  String.length (s1 +:+ s2) = String.length s1 + String.length s2.
Proof.
  induction s1 as [|c s1 IH]; [done|]. rewrite app_cons. simpl. by rewrite IH.
Qed.

Lemma app_inj_tail s1 s2 s : s1 +:+ s = s2 +:+ s -> s1 = s2.
Proof.
  revert s2. induction s1 as [|c s1 IH]; intros [|d s2] H.
  - done.
  - apply (f_equal String.length) in H.
    rewrite app_nil, app_cons in H. simpl in H. rewrite length_app in H. lia.
  - apply (f_equal String.length) in H.
    rewrite app_nil, app_cons in H. simpl in H. rewrite length_app in H. lia.
  - rewrite !app_cons in H. injection H as -> H. f_equal. by apply IH.
Qed.

End StrFacts.

(** ** The response annotator *)

Section Annotator.

(** What [_detect_emergency] decides: some keyword of the list, as it is
    written there, occurs in the lowered text. *)
Lemma detect_emergency_occurs text :
  _detect_emergency text = true <->
  exists keyword, keyword ∈ emergency_keywords /\
                  Str.occurs_in keyword (Str.lower text).
Proof.
  unfold _detect_emergency. rewrite existsb_exists. split.
  - intros (k & Hin & Hc). exists k. split.
    + by apply list_elem_of_In.
    + by apply contains_occurs.
  - intros (k & Hin & Hc). exists k. split.
    + by apply list_elem_of_In.
    + by apply contains_occurs.
Qed.

(** The keyword ["go to the ER"] holds upper-case letters, so it matches no
    lowered text: only the other nine keywords decide. *)
Lemma detect_emergency_live text :
  _detect_emergency text =
  existsb (fun keyword => Str.contains keyword (Str.lower text)) live_keywords.
Proof.
  unfold _detect_emergency, emergency_keywords.
  cbn [existsb].
  rewrite (contains_lower_upper "go to the ER" text) by reflexivity.
  reflexivity.
Qed.

(** Whatever the code flags, the specification's annotator flags too. *)
Lemma detect_emergency_sound text :
  _detect_emergency text = true -> isEmergency_spec text = true.
Proof.
  rewrite detect_emergency_live. unfold isEmergency_spec.
  rewrite !existsb_exists. intros (k & Hin & Hc).
  exists k. split.
  - vm_compute in Hin. vm_compute. tauto.
  - vm_compute in Hin.
    destruct Hin as [<-|[<-|[<-|[<-|[<-|[<-|[<-|[<-|[<-|[]]]]]]]]]]; exact Hc.
Qed.

Example detect_emergency_upper : _detect_emergency "EMERGENCY" = true.
Proof. reflexivity. Qed.

Example detect_emergency_lower : _detect_emergency "emergency" = true.
Proof. reflexivity. Qed.

Example detect_emergency_routine : _detect_emergency "routine checkup" = false.
Proof. reflexivity. Qed.

Example detect_emergency_negated :
  _detect_emergency "this is NOT an emergency" = true.
Proof. reflexivity. Qed.

(** C1: [isEmergency] is to flag a text exactly when a term of the
    vocabulary, ["go to the er"] among them, occurs in it whatever the case.
    On the text ["Please go to the ER."] the term occurs, the annotator of
    the specification answers [true], and [_detect_emergency] answers
    [false]: the keyword is written ["go to the ER"] in the code and is
    compared with the lowered text. *)
Theorem detect_emergency_go_to_the_ER :
  Str.occurs_in (Str.lower "go to the er") (Str.lower "Please go to the ER.") /\
  isEmergency_spec "Please go to the ER." = true /\
  _detect_emergency "Please go to the ER." = false.
Proof.
  split; [|split]; [|reflexivity|reflexivity].
  exists "please ", ".". reflexivity.
Qed.

End Annotator.

(** ** The session store *)

Ltac unfold_M :=
  unfold mbind, mret, M_bind, M_ret, try_except, get, modify, effect, raise,
    on_object in *.

Section SessionStore.

Context (env : Env).

Lemma sessions_set_sessions m a : sessions (set_sessions m a) = m.
Proof. reflexivity. Qed.

Lemma set_sessions_twice m m' a :
  set_sessions m (set_sessions m' a) = set_sessions m a.
Proof. reflexivity. Qed.

Lemma configured_set_sessions m a : configured a -> configured (set_sessions m a).
Proof. intros H. exact H. Qed.

Lemma create_session_created a t sid :
  configured a ->
  start_chat_raises env t = None ->
  create_session env sid a t =
  (Return [ ("session_id", VStr sid);
            ("status", VStr "created");
            ("message", VStr "Medical assistant session started. How can I help you today?") ],
   set_sessions (<[sid := fresh_session (now_isoformat env (S t))]> (sessions a)) a,
   S (S t)).
Proof.
  intros [Hi [m Hm]] Hs.
  unfold create_session, start_chat, store_session, datetime_now_isoformat.
  unfold_M. rewrite Hi. simpl. rewrite Hm. simpl. rewrite Hs. reflexivity.
Qed.

Lemma create_session_failed a t sid e :
  configured a ->
  start_chat_raises env t = Some e ->
  create_session env sid a t =
  (Return [ ("error", VStr (str env e));
            ("message", VStr "Failed to create session. Please check API configuration.") ],
   a, S t).
Proof.
  intros [Hi [m Hm]] Hs.
  unfold create_session, start_chat, store_session, datetime_now_isoformat.
  unfold_M. rewrite Hi. simpl. rewrite Hm. simpl. rewrite Hs. reflexivity.
Qed.

Lemma get_response_known_ok a t sid msg s c' response text :
  initialized a = true ->
  sessions a !! sid = Some s ->
  send_message env t (chat s) msg = (c', inr response) ->
  genai.response_text response = inr text ->
  get_response env sid msg a t =
  (Return [ ("session_id", VStr sid);
            ("user_message", VStr msg);
            ("assistant_response", VStr text);
            ("is_emergency", VBool (_detect_emergency text));
            ("timestamp", VStr (now_isoformat env (S (S t))));
            ("message_count", VInt (message_count s + 1)) ],
   set_sessions
     (<[sid := {| chat := c'; created_at := created_at s;
                  message_count := message_count s + 1;
                  last_interaction := Some (now_isoformat env (S t)) |}]>
        (sessions a)) a,
   S (S (S t))).
Proof.
  intros Hi Hs Hsend Htext.
  unfold get_response, lookup_session, chat_send_message, store_session,
    datetime_now_isoformat, read_text.
  unfold_M. rewrite Hi, Hs. simpl. rewrite Hs, Hsend. simpl. rewrite Htext.
  rewrite !set_sessions_twice, !insert_insert_eq. reflexivity.
Qed.

(** The call returned, but the text of the reply cannot be read: the
    exception is raised after the turn was counted, and the [except] branch
    returns the error dictionary. *)
Lemma get_response_known_no_text a t sid msg s c' response e :
  initialized a = true ->
  sessions a !! sid = Some s ->
  send_message env t (chat s) msg = (c', inr response) ->
  genai.response_text response = inl e ->
  get_response env sid msg a t =
  (Return [ ("session_id", VStr sid);
            ("error", VStr (str env e));
            ("message", VStr (error_message (str env e))) ],
   set_sessions
     (<[sid := {| chat := c'; created_at := created_at s;
                  message_count := message_count s + 1;
                  last_interaction := Some (now_isoformat env (S t)) |}]>
        (sessions a)) a,
   S (S t)).
Proof.
  intros Hi Hs Hsend Htext.
  unfold get_response, lookup_session, chat_send_message, store_session,
    datetime_now_isoformat, read_text.
  unfold_M. rewrite Hi, Hs. simpl. rewrite Hs, Hsend. simpl. rewrite Htext.
  rewrite !set_sessions_twice, !insert_insert_eq. reflexivity.
Qed.

Lemma get_response_known_failed a t sid msg s c' e :
  initialized a = true ->
  sessions a !! sid = Some s ->
  send_message env t (chat s) msg = (c', inl e) ->
  get_response env sid msg a t =
  (Return [ ("session_id", VStr sid);
            ("error", VStr (str env e));
            ("message", VStr (error_message (str env e))) ],
   set_sessions (<[sid := set_chat c' s]> (sessions a)) a,
   S t).
Proof.
  intros Hi Hs Hsend.
  unfold get_response, lookup_session, chat_send_message, store_session,
    datetime_now_isoformat.
  unfold_M. rewrite Hi, Hs. simpl. rewrite Hs, Hsend. reflexivity.
Qed.

Lemma get_response_unknown_failed a t sid msg e :
  configured a ->
  sessions a !! sid = None ->
  start_chat_raises env t = Some e ->
  get_response env sid msg a t =
  (Return [ ("error", VStr (str env e));
            ("message", VStr "Failed to create session. Please check API configuration.") ],
   a, S t).
Proof.
  intros Hc Hs Hstart. pose proof Hc as [Hi _].
  unfold get_response. unfold_M. rewrite Hi, Hs. simpl.
  rewrite (create_session_failed a t sid e Hc Hstart). reflexivity.
Qed.

(** On an unknown id the session is created first, and the exchange goes on
    as on a known one. *)
Lemma get_response_unknown_created a t sid msg :
  configured a ->
  sessions a !! sid = None ->
  start_chat_raises env t = None ->
  get_response env sid msg a t =
  get_response env sid msg
    (set_sessions (<[sid := fresh_session (now_isoformat env (S t))]> (sessions a)) a)
    (S (S t)).
Proof.
  intros Hc Hs Hstart. pose proof Hc as [Hi _].
  unfold get_response at 1. unfold_M. rewrite Hi, Hs. simpl.
  rewrite (create_session_created a t sid Hc Hstart). simpl.
  unfold get_response. unfold_M. simpl. rewrite Hi. simpl.
  rewrite lookup_insert_eq. reflexivity.
Qed.

Lemma get_response_not_initialized a t sid msg :
  initialized a = false ->
  get_response env sid msg a t =
  (Return [ ("error", VStr "not_initialized");
            ("message", VStr "Medical assistant is not properly configured. Please check your GEMINI_API_KEY.") ],
   a, t).
Proof.
  intros Hi. unfold get_response. unfold_M. rewrite Hi. reflexivity.
Qed.

(** The exchange never raises: every failure comes back as a dictionary. *)
Lemma get_response_returns a t sid msg :
  configured a ->
  exists d a' t', get_response env sid msg a t = (Return d, a', t').
Proof.
  intros Hc. pose proof Hc as [Hi _].
  assert (Hknown : forall b u s, initialized b = true ->
            sessions b !! sid = Some s ->
            exists d b' u', get_response env sid msg b u = (Return d, b', u')).
  { intros b u s Hb Hs.
    destruct (send_message env u (chat s) msg) as [c' [e|response]] eqn:Hsend.
    - rewrite (get_response_known_failed b u sid msg s c' e Hb Hs Hsend). eauto.
    - destruct (genai.response_text response) as [e|text] eqn:Htext.
      + rewrite (get_response_known_no_text b u sid msg s c' response e
                   Hb Hs Hsend Htext). eauto.
      + rewrite (get_response_known_ok b u sid msg s c' response text
                   Hb Hs Hsend Htext). eauto. }
  destruct (sessions a !! sid) as [s|] eqn:Hs; [by eapply Hknown|].
  destruct (start_chat_raises env t) as [e|] eqn:Hstart.
  - rewrite (get_response_unknown_failed a t sid msg e Hc Hs Hstart). eauto.
  - rewrite (get_response_unknown_created a t sid msg Hc Hs Hstart).
    eapply Hknown; [exact Hi | apply lookup_insert_eq].
Qed.

Lemma get_response_known_success a t sid msg s d a' t' :
  initialized a = true ->
  sessions a !! sid = Some s ->
  get_response env sid msg a t = (Return d, a', t') ->
  successful d = true ->
  a' = set_sessions
         (<[sid := {| chat := (send_message env t (chat s) msg).1;
                      created_at := created_at s;
                      message_count := message_count s + 1;
                      last_interaction := Some (now_isoformat env (S t)) |}]>
            (sessions a)) a /\
  t' = S (S (S t)) /\
  dict_get "message_count" d = Some (VInt (message_count s + 1)) /\
  dict_get "session_id" d = Some (VStr sid).
Proof.
  intros Hi Hs Hrun Hok.
  destruct (send_message env t (chat s) msg) as [c' [e|response]] eqn:Hsend.
  - rewrite (get_response_known_failed a t sid msg s c' e Hi Hs Hsend) in Hrun.
    injection Hrun as <- <- <-. discriminate Hok.
  - destruct (genai.response_text response) as [e|text] eqn:Htext.
    + rewrite (get_response_known_no_text a t sid msg s c' response e
                 Hi Hs Hsend Htext) in Hrun.
      injection Hrun as <- <- <-. discriminate Hok.
    + rewrite (get_response_known_ok a t sid msg s c' response text
                 Hi Hs Hsend Htext) in Hrun.
      injection Hrun as <- <- <-. repeat split.
Qed.

Lemma get_response_success a t sid msg d a' t' :
  configured a ->
  get_response env sid msg a t = (Return d, a', t') ->
  successful d = true ->
  exists s', exchanged env a t sid d a' t' s'.
Proof.
  intros Hc Hrun Hok. pose proof Hc as [Hi _]. unfold exchanged, count_of.
  destruct (sessions a !! sid) as [s|] eqn:Hs.
  - destruct (get_response_known_success a t sid msg s d a' t' Hi Hs Hrun Hok)
      as (-> & -> & Hcount & Hid).
    eexists. split; [reflexivity|]. simpl.
    repeat split; try done; try lia; do 2 f_equal; lia.
  - destruct (start_chat_raises env t) as [e|] eqn:Hstart.
    + rewrite (get_response_unknown_failed a t sid msg e Hc Hs Hstart) in Hrun.
      injection Hrun as <- <- <-. discriminate Hok.
    + rewrite (get_response_unknown_created a t sid msg Hc Hs Hstart) in Hrun.
      apply get_response_known_success
        with (s := fresh_session (now_isoformat env (S t))) in Hrun
        as (-> & -> & Hcount & Hid);
        [|exact Hi|apply lookup_insert_eq|exact Hok].
      eexists. split.
      { rewrite sessions_set_sessions, set_sessions_twice, insert_insert_eq.
        reflexivity. }
      simpl. repeat split; try done; try lia; do 2 f_equal; lia.
Qed.

Lemma exchanged_configured a t sid d a' t' s' :
  configured a -> exchanged env a t sid d a' t' s' -> configured a'.
Proof. intros Hc (-> & _). exact Hc. Qed.

Lemma exchanged_lookup a t sid d a' t' s' :
  exchanged env a t sid d a' t' s' -> sessions a' !! sid = Some s'.
Proof. intros (-> & _). simpl. apply lookup_insert_eq. Qed.

Lemma exchanged_others a t sid d a' t' s' sid' :
  exchanged env a t sid d a' t' s' -> sid' <> sid ->
  sessions a' !! sid' = sessions a !! sid'.
Proof. intros (-> & _) Hne. simpl. by apply lookup_insert_ne. Qed.

Lemma end_session_known a t sid s :
  sessions a !! sid = Some s ->
  end_session sid a t =
  (Return [ ("session_id", VStr sid); ("status", VStr "ended") ],
   set_sessions (delete sid (sessions a)) a, t).
Proof. intros Hs. unfold end_session. unfold_M. by rewrite Hs. Qed.

Lemma end_session_unknown a t sid :
  sessions a !! sid = None ->
  end_session sid a t = (Return [ ("error", VStr "Session not found") ], a, t).
Proof. intros Hs. unfold end_session. unfold_M. by rewrite Hs. Qed.

Lemma get_session_history_unknown a t sid :
  sessions a !! sid = None ->
  get_session_history sid a t =
  (Return [ ("error", VStr "Session not found") ], a, t).
Proof. intros Hs. unfold get_session_history. unfold_M. by rewrite Hs. Qed.

(** With a healthy provider the exchange succeeds, on known and unknown
    ids alike. *)
Lemma get_response_healthy a t sid msg :
  healthy env -> configured a ->
  exists d a' t',
    get_response env sid msg a t = (Return d, a', t') /\ successful d = true.
Proof.
  intros [Hstart Hsend] Hc. pose proof Hc as [Hi _].
  assert (Hknown : forall b u s, initialized b = true ->
            sessions b !! sid = Some s ->
            exists d b' u', get_response env sid msg b u = (Return d, b', u')
                            /\ successful d = true).
  { intros b u s Hb Hs.
    destruct (Hsend u (chat s) msg) as (c' & response & text & Heq & Htext).
    rewrite (get_response_known_ok b u sid msg s c' response text
               Hb Hs Heq Htext).
    eauto. }
  destruct (sessions a !! sid) as [s|] eqn:Hs; [by eapply Hknown|].
  rewrite (get_response_unknown_created a t sid msg Hc Hs (Hstart t)).
  eapply Hknown; [exact Hi | apply lookup_insert_eq].
Qed.

(** When [chat.send_message] raises in an exchange on a stored session,
    [get_response] returns the error dictionary with the classified
    message, and the stored session keeps its [message_count], its
    [last_interaction] and its [created_at]; no other session changes. *)
Theorem get_response_provider_failure a t sid msg s c' e :
  initialized a = true ->
  sessions a !! sid = Some s ->
  send_message env t (chat s) msg = (c', inl e) ->
  exists a' s',
    get_response env sid msg a t =
      (Return [ ("session_id", VStr sid);
                ("error", VStr (str env e));
                ("message", VStr (error_message (str env e))) ],
       a', S t) /\
    sessions a' !! sid = Some s' /\
    message_count s' = message_count s /\
    last_interaction s' = last_interaction s /\
    created_at s' = created_at s /\
    forall sid', sid' <> sid -> sessions a' !! sid' = sessions a !! sid'.
Proof.
  intros Hi Hs Hsend.
  rewrite (get_response_known_failed a t sid msg s c' e Hi Hs Hsend).
  eexists _, (set_chat c' s). split; [reflexivity|].
  split; [apply lookup_insert_eq|].
  repeat split. intros sid' Hne. simpl. by apply lookup_insert_ne.
Qed.

(** On an unknown id the session is created before the provider is called;
    when the call then fails the new session stays, with no turn counted. *)
Lemma get_response_provider_failure_unknown a t sid msg c' e :
  configured a ->
  sessions a !! sid = None ->
  start_chat_raises env t = None ->
  send_message env (S (S t)) {| genai.history := [] |} msg = (c', inl e) ->
  exists a' s',
    get_response env sid msg a t =
      (Return [ ("session_id", VStr sid);
                ("error", VStr (str env e));
                ("message", VStr (error_message (str env e))) ],
       a', S (S (S t))) /\
    sessions a' !! sid = Some s' /\
    message_count s' = 0 /\
    last_interaction s' = None.
Proof.
  intros Hc Hs Hstart Hsend. pose proof Hc as [Hi _].
  rewrite (get_response_unknown_created a t sid msg Hc Hs Hstart).
  erewrite get_response_known_failed;
    [|exact Hi|apply lookup_insert_eq|exact Hsend].
  eexists _, _. split; [reflexivity|]. simpl.
  split; [apply lookup_insert_eq|]. split; reflexivity.
Qed.

(** C4: [create_session] on an id that is already in the registry raises no
    uniqueness error: it returns the ["created"] dictionary and the entry
    under the id is replaced by a fresh session, with an empty history,
    [message_count = 0], no [last_interaction] and [created_at] read from
    the clock during the call; the other entries stay.  (The handle has to
    be obtained: [start_chat] does not raise.) *)
Theorem create_session_overwrites a t sid old :
  configured a ->
  sessions a !! sid = Some old ->
  start_chat_raises env t = None ->
  exists a',
    create_session env sid a t =
      (Return [ ("session_id", VStr sid);
                ("status", VStr "created");
                ("message", VStr "Medical assistant session started. How can I help you today?") ],
       a', S (S t)) /\
    sessions a' !! sid =
      Some {| chat := {| genai.history := [] |};
              created_at := now_isoformat env (S t);
              message_count := 0;
              last_interaction := None |} /\
    forall sid', sid' <> sid -> sessions a' !! sid' = sessions a !! sid'.
Proof.
  intros Hc _ Hstart.
  rewrite (create_session_created a t sid Hc Hstart).
  eexists. split; [reflexivity|]. simpl. split.
  - apply lookup_insert_eq.
  - intros sid' Hne. by apply lookup_insert_ne.
Qed.

Lemma exchanges_cons_inv a t sid msg rest rs a' t' :
  exchanges env sid (msg :: rest) a t = (Return rs, a', t') ->
  exists d rs' a1 t1,
    get_response env sid msg a t = (Return d, a1, t1) /\
    exchanges env sid rest a1 t1 = (Return rs', a', t') /\
    rs = d :: rs'.
Proof.
  cbn [exchanges]. unfold_M.
  destruct (get_response env sid msg a t) as [[[d|e] a1] t1]; [|discriminate].
  destruct (exchanges env sid rest a1 t1) as [[[rs'|e] a2] t2] eqn:Hrest;
    [|discriminate].
  intros H. injection H as <- <- <-. by exists d, rs', a1, t1.
Qed.

(** Successful exchanges in a row, by induction on those that follow the
    first. *)
Lemma exchanges_success sid rest : forall msg a t rs a' t',
  configured a ->
  exchanges env sid (msg :: rest) a t = (Return rs, a', t') ->
  forallb successful rs = true ->
  exists s',
    sessions a' !! sid = Some s' /\
    message_count s' = count_of a sid + length (msg :: rest) /\
    created_at s' = match sessions a !! sid with
                    | Some s => created_at s
                    | None => now_isoformat env (S t)
                    end /\
    last_interaction s' = Some (now_isoformat env (t' - 2)).
Proof.
  induction rest as [|msg2 rest IH]; intros msg a t rs a' t' Hc Hrun Hok.
  - apply exchanges_cons_inv in Hrun as (d & rs' & a1 & t1 & Hstep & Hrest & ->).
    cbn in Hrest. injection Hrest as <- <- <-.
    cbn [forallb] in Hok. apply andb_true_iff in Hok as [Hd _].
    destruct (get_response_success a t sid msg d a1 t1 Hc Hstep Hd)
      as (s1 & Hex).
    exists s1. split; [by eapply exchanged_lookup|].
    destruct Hex as (_ & Hcount & Hcreated & Hlast & _).
    simpl. by rewrite Hcount.
  - apply exchanges_cons_inv in Hrun as (d & rs' & a1 & t1 & Hstep & Hrest & ->).
    cbn [forallb] in Hok. apply andb_true_iff in Hok as [Hd Hok].
    destruct (get_response_success a t sid msg d a1 t1 Hc Hstep Hd)
      as (s1 & Hex).
    pose proof (exchanged_configured _ _ _ _ _ _ _ Hc Hex) as Hc1.
    pose proof (exchanged_lookup _ _ _ _ _ _ _ Hex) as Hs1.
    destruct (IH msg2 a1 t1 rs' a' t' Hc1 Hrest Hok)
      as (s' & Hs' & Hcount' & Hcreated' & Hlast').
    exists s'. split; [exact Hs'|].
    destruct Hex as (_ & Hcount & Hcreated & _).
    unfold count_of in Hcount'. rewrite Hs1 in Hcount', Hcreated'.
    repeat split.
    + rewrite Hcount', Hcount. simpl. lia.
    + by rewrite Hcreated'.
    + exact Hlast'.
Qed.

(** C5: after [N >= 1] successful exchanges in a row on a session, its
    [message_count] is the count on record before plus [N], that is [N] for
    a session that starts with no turn (an unknown id, created by the first
    exchange, or one just created); its [created_at] is the one it had, or
    for an unknown id the clock reading of its creation; its
    [last_interaction] is the clock reading made by the last exchange.  As
    this holds for every [N], each exchange adds exactly one turn and
    renews [last_interaction], and [created_at] stays. *)
Theorem exchanges_message_count a t sid msgs rs a' t' :
  configured a ->
  msgs <> [] ->
  exchanges env sid msgs a t = (Return rs, a', t') ->
  forallb successful rs = true ->
  exists s',
    sessions a' !! sid = Some s' /\
    message_count s' = count_of a sid + length msgs /\
    created_at s' = match sessions a !! sid with
                    | Some s => created_at s
                    | None => now_isoformat env (S t)
                    end /\
    last_interaction s' = Some (now_isoformat env (t' - 2)).
Proof.
  intros Hc Hne Hrun Hok. destruct msgs as [|msg rest]; [done|].
  by eapply exchanges_success.
Qed.

(** The count never goes down in an exchange, whatever its outcome. *)
Lemma get_response_count_monotone a t sid msg r a' t' sid' :
  configured a ->
  get_response env sid msg a t = (r, a', t') ->
  count_of a sid' <= count_of a' sid'.
Proof.
  intros Hc Hrun. pose proof Hc as [Hi _].
  assert (Hknown : forall b u s b' u', initialized b = true ->
            sessions b !! sid = Some s ->
            get_response env sid msg b u = (r, b', u') ->
            count_of b sid' <= count_of b' sid').
  { intros b u s b' u' Hb Hs Hb'. unfold count_of.
    destruct (send_message env u (chat s) msg) as [c' [e|response]] eqn:Hsend.
    - rewrite (get_response_known_failed b u sid msg s c' e Hb Hs Hsend) in Hb'.
      injection Hb' as <- <- <-. simpl.
      destruct (decide (sid' = sid)) as [->|Hne].
      + by rewrite lookup_insert_eq, Hs.
      + by rewrite lookup_insert_ne.
    - assert (Hb'' : b' = set_sessions
                (<[sid := {| chat := c'; created_at := created_at s;
                             message_count := message_count s + 1;
                             last_interaction := Some (now_isoformat env (S u)) |}]>
                   (sessions b)) b).
      { destruct (genai.response_text response) as [e|text] eqn:Htext.
        - rewrite (get_response_known_no_text b u sid msg s c' response e
                     Hb Hs Hsend Htext) in Hb'.
          by injection Hb' as <- <- <-.
        - rewrite (get_response_known_ok b u sid msg s c' response text
                     Hb Hs Hsend Htext) in Hb'.
          by injection Hb' as <- <- <-. }
      rewrite Hb''. simpl.
      destruct (decide (sid' = sid)) as [->|Hne].
      + rewrite lookup_insert_eq, Hs. simpl. lia.
      + by rewrite lookup_insert_ne. }
  destruct (sessions a !! sid) as [s|] eqn:Hs; [by eapply Hknown|].
  destruct (start_chat_raises env t) as [e|] eqn:Hstart.
  - rewrite (get_response_unknown_failed a t sid msg e Hc Hs Hstart) in Hrun.
    by injection Hrun as <- <- <-.
  - rewrite (get_response_unknown_created a t sid msg Hc Hs Hstart) in Hrun.
    eapply Hknown in Hrun; [|exact Hi|apply lookup_insert_eq].
    etrans; [|exact Hrun]. unfold count_of. simpl.
    destruct (decide (sid' = sid)) as [->|Hne].
    + rewrite Hs. lia.
    + by rewrite lookup_insert_ne.
Qed.

(** C6: a successful exchange on an id that [end_session] has just been
    called on opens a new session: the result reports [message_count = 1],
    and the stored session counts one turn, is created at the clock reading
    of this exchange and holds the handle of a conversation started from an
    empty history; whatever the count on record before. *)
Theorem end_session_then_exchange a t sid msg d a' t' :
  configured a ->
  end_then_exchange env sid msg a t = (Return d, a', t') ->
  successful d = true ->
  dict_get "message_count" d = Some (VInt 1) /\
  exists s',
    sessions a' !! sid = Some s' /\
    message_count s' = 1 /\
    created_at s' = now_isoformat env (S t) /\
    chat s' = (send_message env (S (S t)) {| genai.history := [] |} msg).1.
Proof.
  intros Hc Hrun Hok. pose proof Hc as [Hi _].
  assert (Hend : exists a1, end_session sid a t = (Return a1.1, a1.2, t)
                            /\ configured a1.2 /\ sessions a1.2 !! sid = None).
  { destruct (sessions a !! sid) as [s|] eqn:Hs.
    - eexists (_, _). rewrite (end_session_known a t sid s Hs).
      split; [reflexivity|]. split; [exact Hc|]. simpl. apply lookup_delete_eq.
    - eexists (_, _). rewrite (end_session_unknown a t sid Hs).
      split; [reflexivity|]. by split. }
  destruct Hend as ([r1 a1] & Hend & Hc1 & Hs1). simpl in Hend, Hc1, Hs1.
  unfold end_then_exchange in Hrun. unfold_M. rewrite Hend in Hrun.
  destruct (start_chat_raises env t) as [e|] eqn:Hstart.
  - rewrite (get_response_unknown_failed a1 t sid msg e Hc1 Hs1 Hstart) in Hrun.
    injection Hrun as <- <- <-. discriminate Hok.
  - rewrite (get_response_unknown_created a1 t sid msg Hc1 Hs1 Hstart) in Hrun.
    apply get_response_known_success
      with (s := fresh_session (now_isoformat env (S t))) in Hrun
      as (-> & -> & Hcount & Hid);
      [|apply Hc1|apply lookup_insert_eq|exact Hok].
    split; [exact Hcount|].
    eexists. split; [apply lookup_insert_eq|]. by repeat split.
Qed.

(** C9: the dictionary a successful exchange returns carries, under
    ["message_count"], the count stored for the session when the call ends,
    and under ["session_id"] the id the call was given. *)
Theorem get_response_reports_stored_count a t sid msg d a' t' :
  configured a ->
  get_response env sid msg a t = (Return d, a', t') ->
  successful d = true ->
  exists s',
    sessions a' !! sid = Some s' /\
    dict_get "message_count" d = Some (VInt (message_count s')) /\
    dict_get "session_id" d = Some (VStr sid).
Proof.
  intros Hc Hrun Hok.
  destruct (get_response_success a t sid msg d a' t' Hc Hrun Hok) as (s' & Hex).
  exists s'. split; [by eapply exchanged_lookup|].
  destruct Hex as (_ & _ & _ & _ & Hcount & Hid & _). by split.
Qed.

(** Every method leaves the attributes [initialized] and [model] alone. *)
Lemma get_response_configured a t sid msg r a' t' :
  configured a ->
  get_response env sid msg a t = (r, a', t') ->
  configured a'.
Proof.
  intros Hc Hrun. pose proof Hc as [Hi _].
  assert (Hknown : forall b u s, configured b ->
            sessions b !! sid = Some s ->
            get_response env sid msg b u = (r, a', t') -> configured a').
  { intros b u s Hb Hs Hb'. pose proof Hb as [Hbi _].
    destruct (send_message env u (chat s) msg) as [c' [e|response]] eqn:Hsend.
    - rewrite (get_response_known_failed b u sid msg s c' e Hbi Hs Hsend) in Hb'.
      by injection Hb' as <- <- <-.
    - destruct (genai.response_text response) as [e'|text] eqn:Htext.
      + rewrite (get_response_known_no_text b u sid msg s c' response e'
                   Hbi Hs Hsend Htext) in Hb'.
        by injection Hb' as <- <- <-.
      + rewrite (get_response_known_ok b u sid msg s c' response text
                   Hbi Hs Hsend Htext) in Hb'.
        by injection Hb' as <- <- <-. }
  destruct (sessions a !! sid) as [s|] eqn:Hs; [by eapply Hknown|].
  destruct (start_chat_raises env t) as [e|] eqn:Hstart.
  - rewrite (get_response_unknown_failed a t sid msg e Hc Hs Hstart) in Hrun.
    by injection Hrun as <- <- <-.
  - rewrite (get_response_unknown_created a t sid msg Hc Hs Hstart) in Hrun.
    refine (Hknown _ _ (fresh_session _) _ _ Hrun);
      [exact Hc | apply lookup_insert_eq].
Qed.

(** The message of [clear_all_sessions] tells the count. *)
Lemma cleared_message_inj (k1 k2 : nat) :
  "Cleared " +:+ pretty k1 +:+ " sessions" =
  "Cleared " +:+ pretty k2 +:+ " sessions" ->
  k1 = k2.
Proof.
  intros H. apply (inj (String.app "Cleared ")) in H.
  apply app_inj_tail in H. by apply (inj pretty) in H.
Qed.

(** C7: on a registry of [K] sessions [clear_all_sessions] returns the
    message ["Cleared K sessions"] and leaves the registry empty; after it
    [get_session_history] on any id returns the ["Session not found"] error
    dictionary, which the route handler turns into a 404. *)
Theorem clear_all_sessions_count a t sid :
  exists a',
    clear_all_sessions a t =
      (Return [ ("message",
                 VStr ("Cleared " +:+ pretty (size (sessions a)) +:+ " sessions")) ],
       a', t) /\
    size (sessions a') = 0 /\
    get_session_history sid a' t =
      (Return [ ("error", VStr "Session not found") ], a', t) /\
    main.get_history env sid (Some a') t =
      (Raise (HTTPException 404 (VStr "Session not found")), Some a', t).
Proof.
  exists (set_sessions ∅ a). split; [reflexivity|].
  split; [apply map_size_empty|].
  split.
  - apply get_session_history_unknown. apply lookup_empty.
  - unfold main.get_history, get_chat_history. unfold_M.
    rewrite get_session_history_unknown by apply lookup_empty. reflexivity.
Qed.

(** C8: for an id that is not in the registry [get_session_history]
    returns the ["Session not found"] error dictionary and changes nothing;
    the route handler raises the [HTTPException] with status 404 for it,
    and no other exception. *)
Theorem get_history_not_found a t sid :
  sessions a !! sid = None ->
  get_session_history sid a t =
    (Return [ ("error", VStr "Session not found") ], a, t) /\
  main.get_history env sid (Some a) t =
    (Raise (HTTPException 404 (VStr "Session not found")), Some a, t) /\
  main.status_code (main.get_history env sid (Some a) t).1.1 = 404 /\
  main.unhandled (main.get_history env sid (Some a) t).1.1 = false.
Proof.
  intros Hs.
  assert (Hh : main.get_history env sid (Some a) t =
               (Raise (HTTPException 404 (VStr "Session not found")), Some a, t)).
  { unfold main.get_history, get_chat_history. unfold_M.
    rewrite (get_session_history_unknown a t sid Hs). reflexivity. }
  split; [by apply get_session_history_unknown|].
  split; [exact Hh|]. by rewrite Hh.
Qed.

(** The handler never lets another exception through, whatever the state:
    [get_session_history] does not raise. *)
Lemma get_history_handled o t sid :
  main.unhandled (main.get_history env sid o t).1.1 = false.
Proof.
  destruct o as [a|]; [|reflexivity].
  unfold main.get_history, get_chat_history, get_session_history. unfold_M.
  by destruct (sessions a !! sid).
Qed.

(** C10: [end_session] leaves the registry with the entry of the id
    deleted and nothing else changed: every other id maps to the session it
    mapped to; and on an id that is not there it changes nothing at all and
    returns the ["Session not found"] error dictionary. *)
Theorem end_session_frame a t sid :
  exists d a',
    end_session sid a t = (Return d, a', t) /\
    sessions a' = delete sid (sessions a) /\
    initialized a' = initialized a /\
    model a' = model a /\
    (forall sid', sid' <> sid -> sessions a' !! sid' = sessions a !! sid') /\
    (sessions a !! sid = None ->
     a' = a /\ d = [ ("error", VStr "Session not found") ]).
Proof.
  destruct (sessions a !! sid) as [s|] eqn:Hs.
  - rewrite (end_session_known a t sid s Hs). eexists _, _.
    split; [reflexivity|]. simpl. repeat split; try done.
    intros sid' Hne. by apply lookup_delete_ne.
  - rewrite (end_session_unknown a t sid Hs). eexists _, _.
    split; [reflexivity|]. rewrite (delete_id _ _ Hs). repeat split; try done.
Qed.

End SessionStore.

(** ** Construction and the unconfigured service *)

Section Configuration.

Context (env : Env).

Lemma init_configured api_key a :
  __init__ env api_key = inr a -> configured a /\ sessions a = ∅.
Proof.
  unfold __init__.
  destruct (GENAI_AVAILABLE env); simpl; [|discriminate].
  match goal with |- context [Str.falsy ?k] => destruct (Str.falsy k) end;
    [discriminate|].
  match goal with |- context [configure_raises env ?k] =>
    destruct (configure_raises env k) end; [discriminate|].
  destruct (GenerativeModel_new env) as [e|m]; [discriminate|].
  intros H. injection H as <-. repeat split. by eexists.
Qed.

Lemma medical_assistant_configured a :
  medical_assistant env = Some a -> configured a.
Proof.
  unfold medical_assistant.
  destruct (__init__ env None) as [e|a0] eqn:Hinit; [discriminate|].
  intros H. injection H as <-. by apply init_configured in Hinit as [? _].
Qed.

(** Without the credential no instance exists. *)
Lemma missing_credential :
  GEMINI_API_KEY env = "" -> medical_assistant env = None.
Proof.
  intros Hkey. unfold medical_assistant, __init__. rewrite Hkey.
  by destruct (GENAI_AVAILABLE env).
Qed.

(** What the guarded entry points do then. *)
Lemma get_medical_response_not_configured sid msg t :
  get_medical_response env sid msg None t =
  (Return [ ("error", VStr "assistant_not_initialized");
            ("message", VStr "Medical assistant failed to initialize. Check server logs and API key configuration.") ],
   None, t).
Proof. reflexivity. Qed.

Lemma chat_not_configured request t :
  exists detail t',
    main.chat env request None t = (Raise (HTTPException 500 detail), None, t').
Proof.
  unfold main.chat, main.session_id_or_uuid.
  destruct request as [msg [s|]]; simpl; [destruct (Str.falsy s)|];
    unfold_M; simpl; eauto.
Qed.

Lemma create_session_not_configured t :
  main.create_session env None t =
  (Return [ ("error", VStr "assistant_not_initialized");
            ("message", VStr "Medical assistant failed to initialize. Check server logs and API key configuration.") ],
   None, S t).
Proof. reflexivity. Qed.

Lemma get_history_not_configured sid t :
  main.get_history env sid None t =
  (Raise (HTTPException 404 (VStr "Session not found")), None, t).
Proof. reflexivity. Qed.

Lemma delete_session_not_configured sid t :
  main.delete_session env sid None t =
  (Raise (HTTPException 404 (VStr "Session not found")), None, t).
Proof. reflexivity. Qed.

(** C2: with no assistant instance, [get_stats] and the handler of
    [/admin/clear-sessions] do not return an error result: reading
    [medical_assistant.sessions], and calling
    [medical_assistant.clear_all_sessions], raise [AttributeError], which
    no handler catches.  The convenience functions behind the other routes
    test [medical_assistant is None] first; these two do not. *)
Theorem stats_and_clear_not_configured t :
  main.get_stats env None t =
    (Raise (Error "AttributeError"
                  "'NoneType' object has no attribute 'sessions'"),
     None, t) /\
  main.clear_all_sessions None t =
    (Raise (Error "AttributeError"
                  "'NoneType' object has no attribute 'clear_all_sessions'"),
     None, t) /\
  main.unhandled (main.get_stats env None t).1.1 = true /\
  main.unhandled (main.clear_all_sessions None t).1.1 = true.
Proof. repeat split. Qed.

End Configuration.

(** ** The properties at concrete inputs *)

Section Runs.

Lemma configured_empty_assistant : configured empty_assistant.
Proof. split; [reflexivity | by eexists]. Qed.

Lemma configured_s1_assistant : configured s1_assistant.
Proof. split; [reflexivity | by eexists]. Qed.

(** The scenario of the specification: on a new session ["s1"], the first
    exchange is not flagged and counts one turn, the second is flagged and
    counts two. *)
Example scenario_s1 :
  let run0 := create_session healthy_env "s1" empty_assistant 0 in
  let run1 :=
    get_response healthy_env "s1" "I have a headache" (state_of run0) (ticks_of run0) in
  let run2 :=
    get_response healthy_env "s1" "I have severe chest pain" (state_of run1) (ticks_of run1) in
  let d1 := returned [] (outcome_of run1) in
  let d2 := returned [] (outcome_of run2) in
  dict_get "is_emergency" d1 = Some (VBool false) /\
  dict_get "message_count" d1 = Some (VInt 1) /\
  dict_get "is_emergency" d2 = Some (VBool true) /\
  dict_get "message_count" d2 = Some (VInt 2).
Proof. vm_compute. repeat split. Qed.

Example error_message_quota :
  error_message "429 Quota exceeded" =
  "API quota exceeded. Please check your Google Cloud billing or wait for quota reset.".
Proof. reflexivity. Qed.

Lemma get_response_provider_failure_witness :
  exists a' s',
    get_response failing_env "s1" "I have a headache" s1_assistant 0 =
      (Return [ ("session_id", VStr "s1");
                ("error", VStr (str failing_env (Error "ResourceExhausted" "429 Quota exceeded")));
                ("message", VStr (error_message (str failing_env (Error "ResourceExhausted" "429 Quota exceeded")))) ],
       a', 1) /\
    sessions a' !! "s1" = Some s' /\
    message_count s' = message_count s1_session /\
    last_interaction s' = last_interaction s1_session /\
    created_at s' = created_at s1_session /\
    forall sid', sid' <> "s1" -> sessions a' !! sid' = sessions s1_assistant !! sid'.
Proof.
  apply (get_response_provider_failure failing_env s1_assistant 0 "s1"
           "I have a headache" s1_session (chat s1_session)
           (Error "ResourceExhausted" "429 Quota exceeded")).
  - reflexivity.
  - reflexivity.
  - reflexivity.
Defined.

Lemma create_session_overwrites_witness :
  exists a',
    create_session healthy_env "s1" s1_assistant 0 =
      (Return [ ("session_id", VStr "s1");
                ("status", VStr "created");
                ("message", VStr "Medical assistant session started. How can I help you today?") ],
       a', 2) /\
    sessions a' !! "s1" =
      Some {| chat := {| genai.history := [] |};
              created_at := now_isoformat healthy_env 1;
              message_count := 0;
              last_interaction := None |} /\
    forall sid', sid' <> "s1" -> sessions a' !! sid' = sessions s1_assistant !! sid'.
Proof.
  apply (create_session_overwrites healthy_env s1_assistant 0 "s1" s1_session).
  - exact configured_s1_assistant.
  - reflexivity.
  - reflexivity.
Defined.

Lemma exchanges_message_count_witness :
  let run := exchanges healthy_env "s1" two_turns empty_assistant 0 in
  exists s',
    sessions (state_of run) !! "s1" = Some s' /\
    message_count s' = count_of empty_assistant "s1" + length two_turns /\
    created_at s' = match sessions empty_assistant !! "s1" with
                    | Some s => created_at s
                    | None => now_isoformat healthy_env 1
                    end /\
    last_interaction s' = Some (now_isoformat healthy_env (ticks_of run - 2)).
Proof.
  intros run.
  apply (exchanges_message_count healthy_env empty_assistant 0 "s1" two_turns
           (returned [] (outcome_of run)) (state_of run) (ticks_of run)).
  - exact configured_empty_assistant.
  - discriminate.
  - vm_compute. reflexivity.
  - vm_compute. reflexivity.
Defined.

Lemma end_session_then_exchange_witness :
  let run := end_then_exchange healthy_env "s1" "I have a headache" s1_assistant 0 in
  dict_get "message_count" (returned [] (outcome_of run)) = Some (VInt 1) /\
  exists s',
    sessions (state_of run) !! "s1" = Some s' /\
    message_count s' = 1 /\
    created_at s' = now_isoformat healthy_env 1 /\
    chat s' = (send_message healthy_env 2 {| genai.history := [] |} "I have a headache").1.
Proof.
  intros run.
  apply (end_session_then_exchange healthy_env s1_assistant 0 "s1"
           "I have a headache" (returned [] (outcome_of run)) (state_of run)
           (ticks_of run)).
  - exact configured_s1_assistant.
  - vm_compute. reflexivity.
  - vm_compute. reflexivity.
Defined.

Lemma get_response_reports_stored_count_witness :
  let run := get_response healthy_env "s1" "I have a headache" s1_assistant 0 in
  exists s',
    sessions (state_of run) !! "s1" = Some s' /\
    dict_get "message_count" (returned [] (outcome_of run))
      = Some (VInt (message_count s')) /\
    dict_get "session_id" (returned [] (outcome_of run)) = Some (VStr "s1").
Proof.
  intros run.
  apply (get_response_reports_stored_count healthy_env s1_assistant 0 "s1"
           "I have a headache" (returned [] (outcome_of run)) (state_of run)
           (ticks_of run)).
  - exact configured_s1_assistant.
  - vm_compute. reflexivity.
  - vm_compute. reflexivity.
Defined.

Lemma get_history_not_found_witness :
  get_session_history "s2" s1_assistant 0 =
    (Return [ ("error", VStr "Session not found") ], s1_assistant, 0) /\
  main.get_history healthy_env "s2" (Some s1_assistant) 0 =
    (Raise (HTTPException 404 (VStr "Session not found")), Some s1_assistant, 0) /\
  main.status_code (main.get_history healthy_env "s2" (Some s1_assistant) 0).1.1 = 404 /\
  main.unhandled (main.get_history healthy_env "s2" (Some s1_assistant) 0).1.1 = false.
Proof.
  apply (get_history_not_found healthy_env s1_assistant 0 "s2").
  vm_compute. reflexivity.
Defined.

(** C3: a provider failure is to leave the stored session as it was.  On
    the session ["s1"], which counts three turns, with a provider whose
    call returns a reply that holds no text, [get_response] returns the
    error dictionary, with the message of the last class (["API Error: "]
    and the text of the exception), and the stored session now counts four
    turns and has a new [last_interaction]: in the [try] block the two
    updates come before [response.text] is read. *)
Theorem get_response_failure_counts_turn :
  sessions s1_assistant !! "s1" = Some s1_session /\
  message_count s1_session = 3 /\
  last_interaction s1_session = Some "2024-01-01T00:05:00" /\
  exists a' s',
    get_response silent_env "s1" "hello" s1_assistant 0 =
      (Return [ ("session_id", VStr "s1");
                ("error", VStr "The response holds no valid part");
                ("message", VStr "API Error: The response holds no valid part") ],
       a', 2) /\
    sessions a' !! "s1" = Some s' /\
    message_count s' = 4 /\
    last_interaction s' = Some "T1" /\
    created_at s' = created_at s1_session.
Proof.
  split; [reflexivity|]. split; [reflexivity|]. split; [reflexivity|].
  exists (state_of (get_response silent_env "s1" "hello" s1_assistant 0)),
    {| chat := chat s1_session;
       created_at := created_at s1_session;
       message_count := 4;
       last_interaction := Some "T1" |}.
  split; [vm_compute; reflexivity|].
  split; [vm_compute; reflexivity|].
  by repeat split.
Qed.

End Runs.

(** * Further properties *)

(** ** The annotator and the error messages, whatever the letter case *)

Section AnyCase.

Import Str.

Lemma str_app_assoc s1 s2 s3 : (s1 +:+ s2) +:+ s3 = s1 +:+ s2 +:+ s3.
Proof.
  induction s1 as [|c s1 IH]; [done|]. rewrite !app_cons. by rewrite IH.
Qed.

Lemma occurs_in_app sub s pre post :
  occurs_in sub s -> occurs_in sub (pre +:+ s +:+ post).
Proof.
  intros (p & q & ->). exists (pre +:+ p), (q +:+ post).
  by rewrite !str_app_assoc.
Qed.

Lemma occurs_in_trans s1 s2 s3 :
  occurs_in s1 s2 -> occurs_in s2 s3 -> occurs_in s1 s3.
Proof. intros H (p & q & ->). by apply occurs_in_app. Qed.

Lemma occurs_in_lower w s : occurs_in w s -> occurs_in (lower w) (lower s).
Proof.
  intros (p & q & ->). exists (lower p), (lower q). by rewrite !lower_app.
Qed.

(** A lowered text splits where the text does. *)
Lemma lower_app_inv s : forall s1 s2,
  lower s = s1 +:+ s2 ->
  exists u1 u2, s = u1 +:+ u2 /\ lower u1 = s1 /\ lower u2 = s2.
Proof.
  induction s as [|c s IH]; intros s1 s2 H.
  - destruct s1 as [|d s1]; [|discriminate H].
    exists "", "". rewrite app_nil in H. by repeat split.
  - destruct s1 as [|d s1].
    + exists "", (String c s). rewrite app_nil in H. by repeat split.
    + rewrite app_cons in H. simpl in H. injection H as Hd H.
      destruct (IH s1 s2 H) as (u1 & u2 & -> & Hu1 & Hu2).
      exists (String c u1), u2. rewrite app_cons. simpl.
      by rewrite Hd, Hu1, Hu2.
Qed.

Lemma occurs_in_lower_inv k s :
  occurs_in k (lower s) -> exists w, lower w = k /\ occurs_in w s.
Proof.
  intros (p & q & H).
  apply lower_app_inv in H as (u1 & u23 & -> & _ & H).
  apply lower_app_inv in H as (w & u3 & -> & Hw & _).
  exists w. split; [exact Hw|]. by exists u1, u3.
Qed.

Example live_keywords_eq :
  live_keywords =
  [ "emergency"; "911"; "urgent care"; "immediately"; "call an ambulance";
    "emergency room"; "life-threatening"; "seek immediate"; "critical" ].
Proof. reflexivity. Qed.

(** X1: [_detect_emergency] flags a text of ASCII characters exactly when
    it holds, in some letter case, one of the nine keywords that are
    written in lower case. *)
Theorem detect_emergency_any_case text :
  is_ascii text = true ->
  (_detect_emergency text = true <->
   exists keyword w,
     keyword ∈ live_keywords /\ spelling_of keyword w /\ occurs_in w text).
Proof.
  intros _.
  rewrite detect_emergency_live, existsb_exists. unfold spelling_of. split.
  - intros (k & Hin & Hc). apply contains_occurs in Hc.
    apply occurs_in_lower_inv in Hc as (w & Hw & Hocc).
    exists k, w. split; [by apply list_elem_of_In|]. by split.
  - intros (k & w & Hin & Hw & Hocc). exists k.
    split; [by apply list_elem_of_In|].
    apply contains_occurs. rewrite <- Hw. by apply occurs_in_lower.
Qed.

Lemma detect_emergency_any_case_witness :
  _detect_emergency "Please Seek Immediate care" = true <->
  exists keyword w,
    keyword ∈ live_keywords /\ spelling_of keyword w /\
    occurs_in w "Please Seek Immediate care".
Proof.
  apply (detect_emergency_any_case "Please Seek Immediate care").
  reflexivity.
Defined.

(** X2: a flagged text stays flagged inside any longer text: nothing that
    comes before or after it takes the flag away. *)
Theorem detect_emergency_monotone text pre post :
  _detect_emergency text = true ->
  _detect_emergency (pre +:+ text +:+ post) = true.
Proof.
  rewrite !detect_emergency_occurs. intros (k & Hin & Hocc).
  exists k. split; [exact Hin|].
  rewrite !lower_app. by apply occurs_in_app.
Qed.

Lemma detect_emergency_monotone_witness :
  _detect_emergency ("this is NOT an " +:+ "emergency" +:+ ", stay calm") = true.
Proof.
  apply (detect_emergency_monotone "emergency" "this is NOT an " ", stay calm").
  reflexivity.
Defined.

(** X3: eight keywords decide: ["go to the ER"] never matches and
    ["emergency room"] only matches where ["emergency"] does. *)
Theorem detect_emergency_eight_keywords text :
  _detect_emergency text =
  existsb (fun keyword => contains keyword (lower text))
    [ "emergency"; "911"; "urgent care"; "immediately"; "call an ambulance";
      "life-threatening"; "seek immediate"; "critical" ].
Proof.
  rewrite detect_emergency_live. change live_keywords with
    [ "emergency"; "911"; "urgent care"; "immediately"; "call an ambulance";
      "emergency room"; "life-threatening"; "seek immediate"; "critical" ].
  cbn [existsb].
  destruct (contains "emergency" (lower text)) eqn:He; [reflexivity|].
  assert (Hr : contains "emergency room" (lower text) = false).
  { destruct (contains "emergency room" (lower text)) eqn:Hr; [|done].
    apply contains_occurs in Hr.
    assert (Hsub : occurs_in "emergency" "emergency room")
      by (exists "", " room"; reflexivity).
    pose proof (occurs_in_trans _ _ _ Hsub Hr) as H.
    apply contains_occurs in H. congruence. }
  by rewrite Hr.
Qed.

(** X4: an error text of ASCII characters that mentions the quota, in any
    letter case, and no invalid key, gets the quota message. *)
Theorem error_message_quota_any_case error_msg w :
  is_ascii error_msg = true ->
  contains "API_KEY_INVALID" error_msg = false ->
  contains "invalid api key" (lower error_msg) = false ->
  spelling_of "quota" w ->
  occurs_in w error_msg ->
  error_message error_msg =
  "API quota exceeded. Please check your Google Cloud billing or wait for quota reset.".
Proof.
  intros _ H1 H2 Hw Hocc. unfold error_message. rewrite H1, H2. simpl.
  apply occurs_in_lower in Hocc. unfold spelling_of in Hw. rewrite Hw in Hocc.
  apply contains_occurs in Hocc. by rewrite Hocc.
Qed.

Lemma error_message_quota_any_case_witness :
  error_message "429 Resource exhausted: QUOTA limit reached" =
  "API quota exceeded. Please check your Google Cloud billing or wait for quota reset.".
Proof.
  apply (error_message_quota_any_case
           "429 Resource exhausted: QUOTA limit reached" "QUOTA").
  - reflexivity.
  - reflexivity.
  - reflexivity.
  - reflexivity.
  - exists "429 Resource exhausted: ", " limit reached". reflexivity.
Defined.

End AnyCase.

(** ** The session store: every outcome of a call *)

Section Outcomes.

Context (env : Env).

Lemma create_session_not_initialized a t sid :
  initialized a = false ->
  create_session env sid a t =
  (Return [ ("error", VStr "Assistant not initialized");
            ("message", VStr "Medical assistant is not properly configured. Please check API key.") ],
   a, t).
Proof. intros Hi. unfold create_session. unfold_M. by rewrite Hi. Qed.

Lemma create_session_no_model a t sid :
  initialized a = true ->
  model a = None ->
  create_session env sid a t =
  (Return [ ("error", VStr (str env (NoneType_has_no_attribute "start_chat")));
            ("message", VStr "Failed to create session. Please check API configuration.") ],
   a, t).
Proof.
  intros Hi Hm. unfold create_session, start_chat. unfold_M.
  rewrite Hi. simpl. by rewrite Hm.
Qed.

(** The exchange on a stored session, in all its outcomes: it returns, and
    the entry either only has its handle touched or counts one turn more. *)
Lemma get_response_known_shape a t sid msg s r a' t' :
  initialized a = true ->
  sessions a !! sid = Some s ->
  get_response env sid msg a t = (r, a', t') ->
  exists d s',
    r = Return d /\
    a' = set_sessions (<[sid := s']> (sessions a)) a /\
    created_at s' = created_at s /\
    ((successful d = false /\ message_count s' = message_count s /\
      last_interaction s' = last_interaction s)
     \/ (message_count s' = message_count s + 1 /\
         last_interaction s' = Some (now_isoformat env (S t)))) /\
    t < t' <= t + 3.
Proof.
  intros Hi Hs Hrun.
  destruct (send_message env t (chat s) msg) as [c' [e|response]] eqn:Hsend.
  - rewrite (get_response_known_failed env a t sid msg s c' e Hi Hs Hsend) in Hrun.
    injection Hrun as <- <- <-. eexists _, (set_chat c' s).
    repeat split; try done; try lia. by left.
  - destruct (genai.response_text response) as [e|text] eqn:Htext.
    + rewrite (get_response_known_no_text env a t sid msg s c' response e
                 Hi Hs Hsend Htext) in Hrun.
      injection Hrun as <- <- <-. eexists _, _.
      repeat split; try done; try lia. by right.
    + rewrite (get_response_known_ok env a t sid msg s c' response text
                 Hi Hs Hsend Htext) in Hrun.
      injection Hrun as <- <- <-. eexists _, _.
      repeat split; try done; try lia. by right.
Qed.

(** The same on any instance and any id. *)
Lemma get_response_shape a t sid msg r a' t' :
  get_response env sid msg a t = (r, a', t') ->
  exists d,
    r = Return d /\
    (a' = a \/
     exists s', a' = set_sessions (<[sid := s']> (sessions a)) a /\
       match sessions a !! sid with
       | Some s =>
           created_at s' = created_at s /\
           ((message_count s' = message_count s /\
             last_interaction s' = last_interaction s)
            \/ (message_count s' = message_count s + 1 /\
                is_Some (last_interaction s')))
       | None =>
           (message_count s' = 0 /\ last_interaction s' = None)
           \/ (message_count s' = 1 /\ is_Some (last_interaction s'))
       end) /\
    t <= t' <= t + 5.
Proof.
  intros Hrun.
  destruct (initialized a) eqn:Hi.
  2: { rewrite (get_response_not_initialized env a t sid msg Hi) in Hrun.
       injection Hrun as <- <- <-. eexists. split; [done|].
       split; [by left | lia]. }
  destruct (sessions a !! sid) as [s|] eqn:Hs.
  - destruct (get_response_known_shape a t sid msg s r a' t' Hi Hs Hrun)
      as (d & s' & -> & -> & Hcr & Hcases & Ht).
    exists d. split; [done|]. split; [|lia]. right. exists s'.
    split; [done|]. split; [done|].
    destruct Hcases as [(_ & H1 & H2)|(H1 & H2)]; [by left|right].
    split; [done|]. rewrite H2. by eexists.
  - destruct (model a) as [m|] eqn:Hm.
    2: { unfold get_response in Hrun. unfold_M. rewrite Hi, Hs in Hrun.
         simpl in Hrun.
         rewrite (create_session_no_model a t sid Hi Hm) in Hrun.
         simpl in Hrun. injection Hrun as <- <- <-.
         eexists. split; [done|]. split; [by left | lia]. }
    assert (Hc : configured a) by (split; [done | by eexists]).
    destruct (start_chat_raises env t) as [e|] eqn:Hstart.
    + rewrite (get_response_unknown_failed env a t sid msg e Hc Hs Hstart) in Hrun.
      injection Hrun as <- <- <-. eexists. split; [done|].
      split; [by left | lia].
    + rewrite (get_response_unknown_created env a t sid msg Hc Hs Hstart) in Hrun.
      apply get_response_known_shape
        with (s := fresh_session (now_isoformat env (S t))) in Hrun
        as (d & s' & -> & -> & Hcr & Hcases & Ht);
        [|exact Hi|apply lookup_insert_eq].
      exists d. split; [done|]. split; [|lia]. right. exists s'.
      rewrite sessions_set_sessions, set_sessions_twice, insert_insert_eq.
      split; [done|].
      destruct Hcases as [(_ & H1 & H2)|(H1 & H2)]; [by left|right].
      split; [done|]. rewrite H2. by eexists.
Qed.

(** The dictionary an exchange returns: an error dictionary, or the six
    keys of a reply under the id it was given. *)
Lemma get_response_result a t sid msg d a' t' :
  get_response env sid msg a t = (Return d, a', t') ->
  successful d = false \/
  exists text timestamp n,
    d = [ ("session_id", VStr sid);
          ("user_message", VStr msg);
          ("assistant_response", VStr text);
          ("is_emergency", VBool (_detect_emergency text));
          ("timestamp", VStr timestamp);
          ("message_count", VInt n) ].
Proof.
  intros Hrun.
  assert (Hknown : forall b u s, initialized b = true ->
            sessions b !! sid = Some s ->
            get_response env sid msg b u = (Return d, a', t') ->
            successful d = false \/
            exists text timestamp n,
              d = [ ("session_id", VStr sid);
                    ("user_message", VStr msg);
                    ("assistant_response", VStr text);
                    ("is_emergency", VBool (_detect_emergency text));
                    ("timestamp", VStr timestamp);
                    ("message_count", VInt n) ]).
  { intros b u s Hb Hs Hb'.
    destruct (send_message env u (chat s) msg) as [c' [e|response]] eqn:Hsend.
    - rewrite (get_response_known_failed env b u sid msg s c' e Hb Hs Hsend) in Hb'.
      injection Hb' as <- <- <-. by left.
    - destruct (genai.response_text response) as [e|text] eqn:Htext.
      + rewrite (get_response_known_no_text env b u sid msg s c' response e
                   Hb Hs Hsend Htext) in Hb'.
        injection Hb' as <- <- <-. by left.
      + rewrite (get_response_known_ok env b u sid msg s c' response text
                   Hb Hs Hsend Htext) in Hb'.
        injection Hb' as <- <- <-. right. by eexists _, _, _. }
  destruct (initialized a) eqn:Hi.
  2: { rewrite (get_response_not_initialized env a t sid msg Hi) in Hrun.
       injection Hrun as <- <- <-. by left. }
  destruct (sessions a !! sid) as [s|] eqn:Hs; [by eapply Hknown|].
  destruct (model a) as [m|] eqn:Hm.
  2: { unfold get_response in Hrun. unfold_M. rewrite Hi, Hs in Hrun.
       simpl in Hrun.
       rewrite (create_session_no_model a t sid Hi Hm) in Hrun.
       simpl in Hrun. injection Hrun as <- <- <-. by left. }
  assert (Hc : configured a) by (split; [done | by eexists]).
  destruct (start_chat_raises env t) as [e|] eqn:Hstart.
  - rewrite (get_response_unknown_failed env a t sid msg e Hc Hs Hstart) in Hrun.
    injection Hrun as <- <- <-. by left.
  - rewrite (get_response_unknown_created env a t sid msg Hc Hs Hstart) in Hrun.
    refine (Hknown _ _ (fresh_session _) _ _ Hrun);
      [exact Hi | apply lookup_insert_eq].
Qed.

Lemma healthy_healthy_env : healthy healthy_env.
Proof. split; [done|]. intros t c msg. by eexists _, _, _. Qed.

(** X5: when the library cannot start a conversation, [create_session]
    returns the error dictionary that carries [str(e)] and stores nothing:
    a session already under the id stays as it is. *)
Theorem create_session_failure_keeps_registry a t sid e :
  configured a ->
  start_chat_raises env t = Some e ->
  outcome_of (create_session env sid a t) =
    Return [ ("error", VStr (str env e));
             ("message", VStr "Failed to create session. Please check API configuration.") ] /\
  state_of (create_session env sid a t) = a.
Proof.
  intros Hc Hstart. by rewrite (create_session_failed env a t sid e Hc Hstart).
Qed.

(** X6: with a provider that answers, an exchange on an id the registry
    does not know succeeds: the session is created on the way, and the
    result and the stored session count one turn. *)
Theorem get_response_new_id_healthy a t sid msg :
  healthy env ->
  configured a ->
  sessions a !! sid = None ->
  exists d s',
    outcome_of (get_response env sid msg a t) = Return d /\
    successful d = true /\
    dict_get "message_count" d = Some (VInt 1) /\
    sessions (state_of (get_response env sid msg a t)) !! sid = Some s' /\
    message_count s' = 1.
Proof.
  intros Hh Hc Hs.
  destruct (get_response_healthy env a t sid msg Hh Hc)
    as (d & a' & t' & Hrun & Hok).
  destruct (get_response_success env a t sid msg d a' t' Hc Hrun Hok)
    as (s' & Hex).
  pose proof (exchanged_lookup env _ _ _ _ _ _ _ Hex) as Hs'.
  destruct Hex as (_ & Hcount & _ & _ & Hd & _).
  unfold count_of in Hcount. rewrite Hs in Hcount. simpl in Hcount.
  exists d, s'. rewrite Hrun. unfold outcome_of, state_of. simpl.
  rewrite Hd, Hcount. by repeat split.
Qed.

(** X7: an exchange on an unknown id whose session cannot be created
    returns the error dictionary of [create_session], leaves the registry as
    it was and does not call the provider. *)
Theorem get_response_lazy_creation_failure a t sid msg e :
  configured a ->
  sessions a !! sid = None ->
  start_chat_raises env t = Some e ->
  get_response env sid msg a t = create_session env sid a t /\
  state_of (get_response env sid msg a t) = a /\
  ticks_of (get_response env sid msg a t) = S t.
Proof.
  intros Hc Hs Hstart.
  rewrite (get_response_unknown_failed env a t sid msg e Hc Hs Hstart).
  by rewrite (create_session_failed env a t sid e Hc Hstart).
Qed.

(** X8: whatever its outcome, an exchange on one id touches no other
    entry of the registry, removes none, and leaves the attributes
    [initialized] and [model] alone. *)
Theorem get_response_frame a t sid msg :
  let a' := state_of (get_response env sid msg a t) in
  initialized a' = initialized a /\
  model a' = model a /\
  (forall sid', sid' <> sid -> sessions a' !! sid' = sessions a !! sid') /\
  (forall sid', is_Some (sessions a !! sid') -> is_Some (sessions a' !! sid')).
Proof.
  destruct (get_response env sid msg a t) as [[r a'] t'] eqn:Hrun.
  unfold state_of. simpl.
  destruct (get_response_shape a t sid msg r a' t' Hrun)
    as (d & _ & [->|(s' & -> & _)] & _); [done|].
  simpl. repeat split.
  - intros sid' Hne. by apply lookup_insert_ne.
  - intros sid' Hin. destruct (decide (sid' = sid)) as [->|Hne].
    + rewrite lookup_insert_eq. by eexists.
    + by rewrite lookup_insert_ne.
Qed.

(** X9: [get_response] never raises, on any instance and any input: each
    failure comes back as a dictionary; and it asks the outside world at
    most five times (two clock readings, the start of a conversation, the
    message, a third clock reading). *)
Theorem get_response_never_raises a t sid msg :
  exists d,
    outcome_of (get_response env sid msg a t) = Return d /\
    t <= ticks_of (get_response env sid msg a t) <= t + 5.
Proof.
  destruct (get_response env sid msg a t) as [[r a'] t'] eqn:Hrun.
  destruct (get_response_shape a t sid msg r a' t' Hrun) as (d & -> & _ & Ht).
  by exists d.
Qed.

(** X10: when the call to the provider returns but the text of the reply
    cannot be read, the error dictionary is returned after the turn was
    counted: the stored session has one turn more and a new
    [last_interaction]. *)
Theorem get_response_error_after_counted_turn a t sid msg s c' response e :
  initialized a = true ->
  sessions a !! sid = Some s ->
  send_message env t (chat s) msg = (c', inr response) ->
  genai.response_text response = inl e ->
  exists s',
    outcome_of (get_response env sid msg a t) =
      Return [ ("session_id", VStr sid);
               ("error", VStr (str env e));
               ("message", VStr (error_message (str env e))) ] /\
    sessions (state_of (get_response env sid msg a t)) !! sid = Some s' /\
    message_count s' = message_count s + 1 /\
    last_interaction s' = Some (now_isoformat env (S t)).
Proof.
  intros Hi Hs Hsend Htext.
  rewrite (get_response_known_no_text env a t sid msg s c' response e
             Hi Hs Hsend Htext).
  eexists. split; [reflexivity|]. unfold state_of. simpl.
  split; [apply lookup_insert_eq|]. by split.
Qed.

End Outcomes.

(** ** Runs of calls *)

Section CallRuns.

Context (env : Env).

Lemma session_ok_fresh now : session_ok (fresh_session now).
Proof. by split. Qed.

Lemma registry_ok_insert a sid s' :
  registry_ok a -> session_ok s' ->
  registry_ok (set_sessions (<[sid := s']> (sessions a)) a).
Proof. intros Ha Hs'. unfold registry_ok. simpl. by apply map_Forall_insert_2. Qed.

Lemma create_session_shape a t sid r a' t' :
  create_session env sid a t = (r, a', t') ->
  exists d,
    r = Return d /\
    ((successful d = false /\ a' = a) \/
     (exists now,
        a' = set_sessions (<[sid := fresh_session now]> (sessions a)) a) /\
     successful d = true /\
     dict_get "session_id" d = Some (VStr sid)) /\
    t <= t' <= t + 2.
Proof.
  intros Hrun.
  destruct (initialized a) eqn:Hi.
  2: { rewrite (create_session_not_initialized env a t sid Hi) in Hrun.
       injection Hrun as <- <- <-. eexists. split; [done|].
       split; [by left | lia]. }
  destruct (model a) as [m|] eqn:Hm.
  2: { rewrite (create_session_no_model env a t sid Hi Hm) in Hrun.
       injection Hrun as <- <- <-. eexists. split; [done|].
       split; [by left | lia]. }
  assert (Hc : configured a) by (split; [done | by eexists]).
  destruct (start_chat_raises env t) as [e|] eqn:Hstart.
  - rewrite (create_session_failed env a t sid e Hc Hstart) in Hrun.
    injection Hrun as <- <- <-. eexists. split; [done|].
    split; [by left | lia].
  - rewrite (create_session_created env a t sid Hc Hstart) in Hrun.
    injection Hrun as <- <- <-. eexists. split; [done|].
    split; [right | lia]. split; [by eexists|]. by split.
Qed.

(** One call: it returns, keeps the attributes, and keeps the registry
    well formed. *)
Lemma call_shape c a t r a' t' :
  call env c a t = (r, a', t') ->
  exists d,
    r = Return d /\
    initialized a' = initialized a /\
    model a' = model a /\
    (registry_ok a -> registry_ok a').
Proof.
  destruct c as [sid|sid msg|sid|sid|]; simpl; intros Hrun.
  - destruct (create_session_shape a t sid r a' t' Hrun)
      as (d & -> & [[_ ->]|[(now & ->) _]] & _); exists d; split_and!; try done.
    intros Ha. apply registry_ok_insert; [done | apply session_ok_fresh].
  - destruct (get_response_shape env a t sid msg r a' t' Hrun)
      as (d & -> & [->|(s' & -> & Hs')] & _); exists d; split_and!; try done.
    intros Ha. apply registry_ok_insert; [done|].
    destruct (sessions a !! sid) as [s|] eqn:Hs.
    + pose proof (Ha sid s Hs) as Hok. simpl in Hok. unfold session_ok in *.
      destruct Hs' as (_ & [(-> & ->)|(-> & [ts ->])]); [done|].
      split; [lia | done].
    + unfold session_ok.
      destruct Hs' as [(-> & ->)|(-> & [ts ->])]; [done|].
      split; [lia | done].
  - unfold get_session_history in Hrun. unfold_M.
    destruct (sessions a !! sid); injection Hrun as <- <- <-;
      eexists; split_and!; done.
  - unfold end_session in Hrun. unfold_M.
    destruct (sessions a !! sid); injection Hrun as <- <- <-;
      eexists; split_and!; try done.
    intros Ha. unfold registry_ok. simpl. by apply map_Forall_delete.
  - unfold clear_all_sessions in Hrun. unfold_M.
    injection Hrun as <- <- <-. eexists.
    split_and!; try done; intros _; unfold registry_ok; simpl;
      apply map_Forall_empty.
Qed.

Lemma calls_shape cs : forall a t r a' t',
  calls env cs a t = (r, a', t') ->
  exists rs,
    r = Return rs /\
    length rs = length cs /\
    initialized a' = initialized a /\
    model a' = model a /\
    (registry_ok a -> registry_ok a').
Proof.
  induction cs as [|c cs IH]; intros a t r a' t' Hrun.
  - cbn in Hrun. injection Hrun as <- <- <-. by exists [].
  - cbn [calls] in Hrun. unfold_M.
    destruct (call env c a t) as [[r1 a1] t1] eqn:Hcall.
    destruct (call_shape c a t r1 a1 t1 Hcall) as (d & -> & Hi1 & Hm1 & Hok1).
    destruct (calls env cs a1 t1) as [[r2 a2] t2] eqn:Hrest.
    destruct (IH a1 t1 r2 a2 t2 Hrest) as (rs & -> & Hlen & Hi2 & Hm2 & Hok2).
    injection Hrun as <- <- <-. exists (d :: rs). simpl.
    split_and!; try congruence. auto.
Qed.

(** X11: no run of calls on an instance raises: every call of the run
    returns a dictionary; and the run leaves the attributes [initialized]
    and [model] as they were. *)
Theorem calls_never_raise a t cs :
  exists rs,
    outcome_of (calls env cs a t) = Return rs /\
    length rs = length cs /\
    initialized (state_of (calls env cs a t)) = initialized a /\
    model (state_of (calls env cs a t)) = model a.
Proof.
  destruct (calls env cs a t) as [[r a'] t'] eqn:Hrun.
  destruct (calls_shape cs a t r a' t' Hrun) as (rs & -> & Hlen & Hi & Hm & _).
  by exists rs.
Qed.

(** X12: a run of calls keeps the registry well formed: in each stored
    session the key ["last_interaction"] is there exactly when
    [message_count] is not zero. *)
Theorem calls_keep_registry_ok a t cs :
  registry_ok a ->
  registry_ok (state_of (calls env cs a t)).
Proof.
  intros Ha.
  destruct (calls env cs a t) as [[r a'] t'] eqn:Hrun.
  destruct (calls_shape cs a t r a' t' Hrun) as (rs & _ & _ & _ & _ & Hok).
  by apply Hok.
Qed.

(** X13: a successful [create_session] adds one session to the registry
    when the id is new and none when it is taken. *)
Theorem create_session_size a t sid :
  configured a ->
  start_chat_raises env t = None ->
  size (sessions (state_of (create_session env sid a t))) =
  match sessions a !! sid with
  | Some _ => size (sessions a)
  | None => S (size (sessions a))
  end.
Proof.
  intros Hc Hstart. rewrite (create_session_created env a t sid Hc Hstart).
  unfold state_of. simpl. rewrite map_size_insert.
  by destruct (sessions a !! sid).
Qed.

(** X14: [end_session] takes one session off the registry when the id is
    known and none otherwise; the route [GET /stats] then reports that
    number. *)
Theorem end_session_size a t sid :
  let a' := state_of (end_session sid a t) in
  size (sessions a') =
    match sessions a !! sid with
    | Some _ => pred (size (sessions a))
    | None => size (sessions a)
    end /\
  dict_get "active_sessions" (returned [] (outcome_of (main.get_stats env (Some a') t)))
    = Some (VInt (size (sessions a'))).
Proof.
  unfold end_session. unfold_M. unfold state_of.
  destruct (sessions a !! sid) as [s|] eqn:Hs; simpl; split; try done.
  rewrite map_size_delete. by rewrite Hs.
Qed.

(** X15: after a successful exchange [get_session_history] on the id
    succeeds, changes nothing, and reports the [message_count] the
    exchange returned. *)
Theorem history_after_exchange a t sid msg d a' t' :
  configured a ->
  get_response env sid msg a t = (Return d, a', t') ->
  successful d = true ->
  exists h,
    get_session_history sid a' t' = (Return h, a', t') /\
    successful h = true /\
    dict_get "session_id" h = Some (VStr sid) /\
    dict_get "message_count" h = dict_get "message_count" d.
Proof.
  intros Hc Hrun Hok.
  destruct (get_response_success env a t sid msg d a' t' Hc Hrun Hok)
    as (s' & Hex).
  pose proof (exchanged_lookup env _ _ _ _ _ _ _ Hex) as Hs'.
  destruct Hex as (_ & _ & _ & _ & Hd & _).
  unfold get_session_history. unfold_M. rewrite Hs'.
  eexists. split; [reflexivity|]. rewrite Hd. by repeat split.
Qed.

End CallRuns.

(** ** The route handlers *)

Section Routes.

Context (env : Env).

Lemma get_medical_response_some sid msg a t r a' t' :
  get_response env sid msg a t = (r, a', t') ->
  get_medical_response env sid msg (Some a) t = (r, Some a', t').
Proof.
  intros Hrun. unfold get_medical_response. unfold_M. by rewrite Hrun.
Qed.

Lemma session_id_or_uuid_eq request (o : option MedicalAssistant) t :
  main.session_id_or_uuid env (main.session_id request) o t =
  (Return (request_session_id env request t).1, o,
   (request_session_id env request t).2).
Proof.
  unfold main.session_id_or_uuid, request_session_id.
  destruct (main.session_id request) as [s|]; [destruct (Str.falsy s)|]; done.
Qed.

(** [chat] on an instance, in terms of the exchange it runs. *)
Lemma chat_some request a t :
  let sid := (request_session_id env request t).1 in
  let run := get_response env sid (main.message request) a
               (request_session_id env request t).2 in
  exists d,
    outcome_of run = Return d /\
    main.chat env request (Some a) t =
    (if successful d then Return d
     else Raise (HTTPException 500
                   (VStr (str_HTTPException env 500
                            (dict_get_default "message"
                               (VStr "Internal server error") d)))),
     Some (state_of run), ticks_of run).
Proof.
  cbv zeta.
  destruct (get_response env (request_session_id env request t).1
              (main.message request) a (request_session_id env request t).2)
    as [[r a'] t'] eqn:Hrun.
  destruct (get_response_shape env _ _ _ _ _ _ _ Hrun) as (d & -> & _).
  exists d. split; [reflexivity|].
  unfold main.chat. unfold mbind, M_bind at 1.
  rewrite session_id_or_uuid_eq. unfold_M.
  rewrite (get_medical_response_some _ _ _ _ _ _ _ Hrun).
  unfold successful, state_of, ticks_of. simpl.
  by destruct (dict_in "error" d).
Qed.

Lemma ask_question_some request a t :
  let sid := (request_session_id env request t).1 in
  let run := get_response env sid (main.message request) a
               (request_session_id env request t).2 in
  exists d,
    outcome_of run = Return d /\
    main.ask_question env request (Some a) t =
    (if successful d then
       match dict_get "assistant_response" d with
       | Some answer => Return [ ("answer", answer) ]
       | None => Raise (HTTPException 500
                   (VStr (str env (Error "KeyError" "assistant_response"))))
       end
     else Raise (HTTPException 500
                   (VStr (str_HTTPException env 500
                            (dict_get_default "message"
                               (VStr "Internal server error") d)))),
     Some (state_of run), ticks_of run).
Proof.
  cbv zeta.
  destruct (get_response env (request_session_id env request t).1
              (main.message request) a (request_session_id env request t).2)
    as [[r a'] t'] eqn:Hrun.
  destruct (get_response_shape env _ _ _ _ _ _ _ Hrun) as (d & -> & _).
  exists d. split; [reflexivity|].
  unfold main.ask_question. unfold mbind, M_bind at 1.
  rewrite session_id_or_uuid_eq. unfold_M.
  rewrite (get_medical_response_some _ _ _ _ _ _ _ Hrun).
  unfold successful, state_of, ticks_of, main.dict_getitem. unfold_M. simpl.
  destruct (dict_in "error" d); [done|]. simpl.
  by destruct (dict_get "assistant_response" d).
Qed.

Lemma chat_none request t :
  main.chat env request None t =
  (Raise (HTTPException 500
            (VStr (str_HTTPException env 500
                     (VStr "Medical assistant failed to initialize. Check server logs and API key configuration.")))),
   None, (request_session_id env request t).2).
Proof.
  unfold main.chat. unfold mbind, M_bind at 1.
  by rewrite session_id_or_uuid_eq.
Qed.

Lemma ask_question_none request t :
  main.ask_question env request None t = main.chat env request None t.
Proof.
  rewrite chat_none.
  unfold main.ask_question. unfold mbind, M_bind at 1.
  by rewrite session_id_or_uuid_eq.
Qed.

(** X16: on an instance [chat] returns the dictionary of a successful
    exchange as it is; for an exchange that came back with an error it
    raises [HTTPException] with status 500, whose detail is [str] of the
    [HTTPException] first raised on the message of the error dictionary:
    the handler catches its own exception and wraps it again.  The state is
    the one the exchange leaves. *)
Theorem chat_outcome request a t :
  let sid := (request_session_id env request t).1 in
  let run := get_response env sid (main.message request) a
               (request_session_id env request t).2 in
  exists d,
    outcome_of run = Return d /\
    state_of (main.chat env request (Some a) t) = Some (state_of run) /\
    outcome_of (main.chat env request (Some a) t) =
      if successful d then Return d
      else Raise (HTTPException 500
                    (VStr (str_HTTPException env 500
                             (dict_get_default "message"
                                (VStr "Internal server error") d)))).
Proof.
  intros sid run. destruct (chat_some request a t) as (d & Hd & Hchat).
  exists d. split; [exact Hd|]. by rewrite Hchat.
Qed.

(** X17: [ask_question] and [chat] run the same exchange: on the same
    request they leave the same state; where [chat] returns a dictionary,
    [ask_question] returns its ["assistant_response"] under ["answer"], and
    where [chat] raises, [ask_question] raises the same exception. *)
Theorem ask_question_answers request o t :
  state_of (main.ask_question env request o t) =
    state_of (main.chat env request o t) /\
  ticks_of (main.ask_question env request o t) =
    ticks_of (main.chat env request o t) /\
  match outcome_of (main.chat env request o t) with
  | Return d =>
      exists text,
        dict_get "assistant_response" d = Some (VStr text) /\
        outcome_of (main.ask_question env request o t) =
          Return [ ("answer", VStr text) ]
  | Raise e => outcome_of (main.ask_question env request o t) = Raise e
  end.
Proof.
  destruct o as [a|]; [|by rewrite ask_question_none, chat_none].
  destruct (chat_some request a t) as (d & Hd & Hchat).
  destruct (ask_question_some request a t) as (d' & Hd' & Hask).
  rewrite Hd in Hd'. injection Hd' as <-.
  rewrite Hchat, Hask. unfold state_of, ticks_of, outcome_of. simpl.
  split; [done|]. split; [done|].
  destruct (successful d) eqn:Hok; [|done].
  destruct (get_response env (request_session_id env request t).1
              (main.message request) a (request_session_id env request t).2)
    as [[r a'] t'] eqn:Hrun.
  unfold outcome_of in Hd. simpl in Hd. subst r.
  destruct (get_response_result env _ _ _ _ _ _ _ Hrun)
    as [Hbad|(text & ts & n & ->)]; [congruence|].
  exists text. by split.
Qed.

(** X18: the dictionary [chat] returns carries the session id of the
    request, or, for a request with no id or with the empty id, the uuid
    drawn for it. *)
Theorem chat_session_id request o t d :
  outcome_of (main.chat env request o t) = Return d ->
  dict_get "session_id" d =
  Some (VStr match main.session_id request with
             | Some s => if Str.falsy s then uuid4 env t else s
             | None => uuid4 env t
             end).
Proof.
  intros Hret.
  assert (Hid : (request_session_id env request t).1 =
                match main.session_id request with
                | Some s => if Str.falsy s then uuid4 env t else s
                | None => uuid4 env t
                end).
  { unfold request_session_id.
    destruct (main.session_id request) as [s|]; [destruct (Str.falsy s)|]; done. }
  rewrite <- Hid.
  destruct o as [a|]; [|by rewrite chat_none in Hret].
  destruct (chat_some request a t) as (d' & Hd' & Hchat).
  rewrite Hchat in Hret. unfold outcome_of in Hret. simpl in Hret.
  destruct (successful d') eqn:Hok; [|discriminate].
  injection Hret as ->.
  destruct (get_response env (request_session_id env request t).1
              (main.message request) a (request_session_id env request t).2)
    as [[r a'] t'] eqn:Hrun.
  unfold outcome_of in Hd'. simpl in Hd'. subst r.
  destruct (get_response_result env _ _ _ _ _ _ _ Hrun)
    as [Hbad|(text & ts & n & ->)]; [congruence|]. reflexivity.
Qed.

(** X19: [get_history] answers with status 200 when the id is in the
    registry and with 404 otherwise (also when there is no instance), and
    changes nothing. *)
Theorem get_history_status o t sid :
  state_of (main.get_history env sid o t) = o /\
  ticks_of (main.get_history env sid o t) = t /\
  main.status_code (outcome_of (main.get_history env sid o t)) =
    if known o sid then 200 else 404.
Proof.
  destruct o as [a|]; [|done].
  unfold main.get_history, get_chat_history, get_session_history, known.
  unfold_M. by destruct (sessions a !! sid) as [s|] eqn:Hs.
Qed.

(** X20: [delete_session] answers with status 200 when the id is in the
    registry and with 404 otherwise; after it, whatever it answered, the
    id is gone: a second [delete_session] and [get_history] answer 404. *)
Theorem delete_session_twice o t sid t' :
  let o' := state_of (main.delete_session env sid o t) in
  main.status_code (outcome_of (main.delete_session env sid o t)) =
    (if known o sid then 200 else 404) /\
  known o' sid = false /\
  main.status_code (outcome_of (main.delete_session env sid o' t')) = 404 /\
  main.status_code (outcome_of (main.get_history env sid o' t')) = 404.
Proof.
  destruct o as [a|]; [|done].
  unfold main.delete_session, main.get_history, end_chat_session,
    get_chat_history, end_session, get_session_history, known.
  unfold_M. destruct (sessions a !! sid) as [s|] eqn:Hs; simpl.
  - by rewrite lookup_delete_eq.
  - by rewrite Hs.
Qed.

(** X21: the handler of [POST /session/create] never raises: it draws a
    uuid and returns what [create_chat_session] returns, the error
    dictionaries too; when the dictionary has no ["error"] key it names the
    uuid and a fresh session is stored under it. *)
Theorem create_session_route_returns o t :
  exists d,
    outcome_of (main.create_session env o t) = Return d /\
    (successful d = true ->
     dict_get "session_id" d = Some (VStr (uuid4 env t)) /\
     exists a' now,
       state_of (main.create_session env o t) = Some a' /\
       sessions a' !! uuid4 env t = Some (fresh_session now)).
Proof.
  destruct o as [a|].
  2: { eexists. split; [reflexivity|]. intros Hok. discriminate Hok. }
  unfold main.create_session, create_chat_session. unfold_M.
  destruct (create_session env (uuid4 env t) a (S t)) as [[r a'] t'] eqn:Hrun.
  destruct (create_session_shape env a (S t) (uuid4 env t) r a' t' Hrun)
    as (d & -> & [[Hbad ->]|[(now & ->) [Hok Hid]]] & _).
  - exists d. split; [reflexivity|]. congruence.
  - exists d. split; [reflexivity|]. intros _. split; [exact Hid|].
    eexists _, now. unfold state_of. simpl. split; [reflexivity|].
    apply lookup_insert_eq.
Qed.

End Routes.

(** ** The constructor and the configuration test *)

Section Construction.

Context (env : Env).

(** X22: the module-level instance exists exactly when the library is
    there, the key is not empty, and neither [genai.configure] nor the
    construction of the model raises; it is then initialised, holds the
    model and has no session. *)
Theorem medical_assistant_exists :
  (is_Some (medical_assistant env) <->
   GENAI_AVAILABLE env = true /\
   GEMINI_API_KEY env <> "" /\
   configure_raises env (GEMINI_API_KEY env) = None /\
   exists m, GenerativeModel_new env = inr m) /\
  (forall a, medical_assistant env = Some a ->
     exists m,
       GenerativeModel_new env = inr m /\
       a = {| initialized := true; model := Some m; sessions := ∅ |}).
Proof.
  unfold medical_assistant, __init__.
  destruct (GENAI_AVAILABLE env); simpl.
  2: { split; [split|]; [by intros [? ?] | by intros [? _] | done]. }
  destruct (GEMINI_API_KEY env) as [|c k] eqn:Hkey; simpl.
  { split; [split|]; [by intros [? ?] | by intros (_ & ? & _) | done]. }
  destruct (configure_raises env (String c k)) as [e|]; simpl.
  { split; [split|]; [by intros [? ?] | by intros (_ & _ & ? & _) | done]. }
  destruct (GenerativeModel_new env) as [e|m]; simpl.
  { split; [split|]; [by intros [? ?] | by intros (_ & _ & _ & ? & ?) | done]. }
  split.
  - split; [intros _|by eexists]. split_and!; try done; by exists m.
  - intros a Ha. injection Ha as <-. by exists m.
Qed.

(** X23: [test_configuration] answers [True] exactly when there is an
    instance: where the instance exists the key and the library do too. *)
Theorem test_configuration_instance o t :
  (is_Some o -> is_Some (medical_assistant env)) ->
  test_configuration env o t =
  (Return (match o with Some _ => true | None => false end), o, t).
Proof.
  intros Ho. unfold test_configuration.
  destruct o as [a|].
  - destruct (Ho ltac:(by eexists)) as [a0 Ha0].
    unfold medical_assistant, __init__ in Ha0.
    destruct (GENAI_AVAILABLE env); simpl in *; [|discriminate].
    destruct (Str.falsy (GEMINI_API_KEY env)); [discriminate|]. done.
  - destruct (Str.falsy (GEMINI_API_KEY env)); [done|].
    by destruct (GENAI_AVAILABLE env).
Qed.

End Construction.

(** ** The further properties at concrete inputs *)

Section FurtherRuns.

Lemma create_session_failure_keeps_registry_witness :
  outcome_of (create_session no_chat_env "s1" s1_assistant 0) =
    Return [ ("error", VStr (str no_chat_env (Error "RuntimeError" "no chat")));
             ("message", VStr "Failed to create session. Please check API configuration.") ] /\
  state_of (create_session no_chat_env "s1" s1_assistant 0) = s1_assistant.
Proof.
  apply (create_session_failure_keeps_registry no_chat_env s1_assistant 0 "s1"
           (Error "RuntimeError" "no chat")).
  - exact configured_s1_assistant.
  - reflexivity.
Defined.


Lemma get_response_new_id_healthy_witness :
  exists d s',
    outcome_of (get_response healthy_env "s2" "I have a headache" s1_assistant 0)
      = Return d /\
    successful d = true /\
    dict_get "message_count" d = Some (VInt 1) /\
    sessions (state_of (get_response healthy_env "s2" "I have a headache"
                          s1_assistant 0)) !! "s2" = Some s' /\
    message_count s' = 1.
Proof.
  apply (get_response_new_id_healthy healthy_env s1_assistant 0 "s2"
           "I have a headache").
  - exact healthy_healthy_env.
  - exact configured_s1_assistant.
  - reflexivity.
Defined.

Lemma get_response_lazy_creation_failure_witness :
  get_response no_chat_env "s2" "hello" s1_assistant 0 =
    create_session no_chat_env "s2" s1_assistant 0 /\
  state_of (get_response no_chat_env "s2" "hello" s1_assistant 0) = s1_assistant /\
  ticks_of (get_response no_chat_env "s2" "hello" s1_assistant 0) = 1.
Proof.
  apply (get_response_lazy_creation_failure no_chat_env s1_assistant 0 "s2"
           "hello" (Error "RuntimeError" "no chat")).
  - exact configured_s1_assistant.
  - reflexivity.
  - reflexivity.
Defined.

Lemma get_response_error_after_counted_turn_witness :
  exists s',
    outcome_of (get_response silent_env "s1" "hello" s1_assistant 0) =
      Return [ ("session_id", VStr "s1");
               ("error", VStr (str silent_env
                  (Error "ValueError" "The response holds no valid part")));
               ("message", VStr (error_message (str silent_env
                  (Error "ValueError" "The response holds no valid part")))) ] /\
    sessions (state_of (get_response silent_env "s1" "hello" s1_assistant 0))
      !! "s1" = Some s' /\
    message_count s' = message_count s1_session + 1 /\
    last_interaction s' = Some (now_isoformat silent_env 1).
Proof.
  apply (get_response_error_after_counted_turn silent_env s1_assistant 0 "s1"
           "hello" s1_session (chat s1_session)
           {| genai.response_text :=
                inl (Error "ValueError" "The response holds no valid part") |}
           (Error "ValueError" "The response holds no valid part")).
  - reflexivity.
  - reflexivity.
  - reflexivity.
  - reflexivity.
Defined.

Lemma calls_keep_registry_ok_witness :
  registry_ok
    (state_of (calls healthy_env
                 [ CreateSession "s2"; GetResponse "s1" "I have a headache";
                   GetResponse "s3" "hello"; EndSession "s2" ]
                 s1_assistant 0)).
Proof.
  apply (calls_keep_registry_ok healthy_env s1_assistant 0).
  unfold registry_ok, s1_assistant. simpl.
  apply map_Forall_singleton. split; discriminate.
Defined.

Lemma create_session_size_witness :
  size (sessions (state_of (create_session healthy_env "s1" s1_assistant 0))) =
  match sessions s1_assistant !! "s1" with
  | Some _ => size (sessions s1_assistant)
  | None => S (size (sessions s1_assistant))
  end.
Proof.
  apply (create_session_size healthy_env s1_assistant 0 "s1").
  - exact configured_s1_assistant.
  - reflexivity.
Defined.

Lemma history_after_exchange_witness :
  let run := get_response healthy_env "s1" "I have a headache" s1_assistant 0 in
  exists h,
    get_session_history "s1" (state_of run) (ticks_of run) =
      (Return h, state_of run, ticks_of run) /\
    successful h = true /\
    dict_get "session_id" h = Some (VStr "s1") /\
    dict_get "message_count" h =
      dict_get "message_count" (returned [] (outcome_of run)).
Proof.
  intros run.
  apply (history_after_exchange healthy_env s1_assistant 0 "s1"
           "I have a headache" (returned [] (outcome_of run)) (state_of run)
           (ticks_of run)).
  - exact configured_s1_assistant.
  - vm_compute. reflexivity.
  - vm_compute. reflexivity.
Defined.

Lemma chat_session_id_witness :
  let request := {| main.message := "hello"; main.session_id := None |} in
  let run := main.chat healthy_env request (Some empty_assistant) 0 in
  dict_get "session_id" (returned [] (outcome_of run)) =
  Some (VStr match main.session_id request with
             | Some s => if Str.falsy s then uuid4 healthy_env 0 else s
             | None => uuid4 healthy_env 0
             end).
Proof.
  intros request run.
  apply (chat_session_id healthy_env request (Some empty_assistant) 0
           (returned [] (outcome_of run))).
  vm_compute. reflexivity.
Defined.

Lemma test_configuration_instance_witness :
  test_configuration healthy_env (Some s1_assistant) 0 =
  (Return true, Some s1_assistant, 0).
Proof.
  apply (test_configuration_instance healthy_env (Some s1_assistant) 0).
  intros _. vm_compute. by eexists.
Defined.

End FurtherRuns.
